(** * pdf2markdown: token estimation and the cleanup pipeline

    A shallow embedding of [config.py], [src/utils/token_estimator.py],
    [src/prompts/prompt_templates.py] and of [text_tidy_up] in [src/main.py].

    Conventions.
    - A Python [str] is a [string]; every character of the [string] stands
      for one code point, so [String.length] is Python's [len].
    - A Python [int] is a [Z].
    - The two floating-point computations of the estimator
      ([base * 1.75] and [(actual - estimated) / estimated * 100]) are
      carried out over the rationals [Q].  The products [525 * 1.75] and
      [150 * 1.75] are exactly representable in binary64, so nothing is lost
      for them; the percentage is the exact quotient that the float
      approximates.
    - The completion service is an oracle: the [n]-th request of a run
      either raises or returns a response.  Of a response the code reads
      its usage and the content of its first choice; either read can
      raise, and the content can be [None]. *)

From Stdlib Require Import ZArith QArith Qround Ascii String DecimalString Lia.
From stdpp Require Import base option list strings gmap.

Local Open Scope string_scope.
Local Open Scope list_scope.
Local Open Scope Z_scope.

(** ** config.py *)

Module Config.

Definition MAX_TOKENS : Z := 4096.
Definition CHARS_PER_TOKEN : Z := 4.

Definition IMAGE_TOKEN_BASE : gmap string Z :=
  <["high" := 525]> (<["standard" := 150]> ∅).

(** [1.75] *)
Definition IMAGE_TOKEN_MULTIPLIER : Q := 7 # 4.

End Config.

(** ** Python primitives used by the code *)

Module Py.

(** [len(text)] *)
Definition len (text : string) : Z := Z.of_nat (String.length text).

(** [sep.join(parts)] *)
Definition join (sep : string) (parts : list string) : string :=
  String.concat sep parts.

(** [c * n] for a one-character string [c]. *)
Definition repeat_char (c : ascii) (n : N) : string :=
  N.iter n (String c) "".

(** Line feed, the character written [\n]. *)
Definition LF : ascii := Ascii.ascii_of_nat 10.

(** The paragraph separator ['\n\n']. *)
Definition blank_line : string := String LF (String LF "").

Definition is_LF (c : ascii) : bool := Ascii.eqb c LF.

(** Puts character [c] in front of the first field of a split. *)
Definition push_char (c : ascii) (fields : list string) : list string :=
  match fields with
  | [] => [String c ""]
  | f :: rest => String c f :: rest
  end.

(** [text.split('\n\n')]: the fields between the leftmost, non-overlapping
    occurrences of the separator; never an empty list. *)
Fixpoint split_blank_line (text : string) : list string :=
  match text with
  | "" => [""]
  | String c1 rest1 =>
      match rest1 with
      | "" => [String c1 ""]
      | String c2 rest2 =>
          if is_LF c1 && is_LF c2
          then "" :: split_blank_line rest2
          else push_char c1 (split_blank_line rest1)
      end
  end.

(** [int(x)] of a float: truncation toward zero. *)
Definition int_of (x : Q) : Z := Z.quot (Qnum x) (Z.pos (Qden x)).

(** [round(x)]: to the nearest integer, ties to the even one. *)
Definition round (x : Q) : Z :=
  let f := Qfloor x in
  let twice_frac := Qfloor (2 * (x - inject_Z f)) in
  if Qeq_bool (2 * (x - inject_Z f)) 1
  then (if Z.even f then f else f + 1)
  else f + twice_frac.

(** [str(n)] of an integer. *)
Definition str (n : Z) : string :=
  DecimalString.NilZero.string_of_int (Z.to_int n).

(** [a / b] on integers: [None] stands for [ZeroDivisionError]. *)
Definition truediv (a b : Z) : option Q :=
  if b =? 0 then None else Some (inject_Z a / inject_Z b)%Q.

(** The messages of the exceptions that CPython raises on [None]:
    [None.total_tokens], [len(None)], and [sep.join(items)] with [None] as
    item [i]. *)
Definition usage_none_error : string :=
  "'NoneType' object has no attribute 'total_tokens'".

Definition len_none_error : string :=
  "object of type 'NoneType' has no len()".

Definition join_none_error (i : nat) : string :=
  "sequence item " +:+ str (Z.of_nat i)
  +:+ ": expected str instance, NoneType found".

(** The index of the first [None] among [items], counted from [i]. *)
Fixpoint first_none (i : nat) (items : list (option string)) : option nat :=
  match items with
  | [] => None
  | None :: _ => Some i
  | Some _ :: rest => first_none (S i) rest
  end.

(** [sep.join(items)] where an item can be [None]: a [TypeError] then, on
    the left, with its message. *)
Definition join_items (sep : string) (items : list (option string))
  : string + string :=
  match first_none 0 items with
  | Some i => inl (join_none_error i)
  | None => inr (join sep (omap id items))
  end.

End Py.

(** ** src/utils/token_estimator.py *)

Module TokenEstimator.
Import Config.

Definition estimate_from_string (text : string) : Z :=
  Py.len text / CHARS_PER_TOKEN.

(** [IMAGE_TOKEN_BASE.get(detail, IMAGE_TOKEN_BASE["standard"])]: the
    default is evaluated first, and a missing key there is a [KeyError],
    here [None]. *)
Definition estimate_image_tokens (detail : string) : option Z :=
  match IMAGE_TOKEN_BASE !! "standard" with
  | None => None
  | Some dflt =>
      let base_tokens := default dflt (IMAGE_TOKEN_BASE !! detail) in
      Some (Py.int_of (inject_Z base_tokens * IMAGE_TOKEN_MULTIPLIER)%Q)
  end.

Definition calculate_token_difference (estimated actual : Z)
  : option (Q * Z) :=
  if estimated <=? 0 then Some (0%Q, 0)
  else
    match Py.truediv (actual - estimated) estimated with
    | None => None
    | Some q =>
        let diff_percent := (q * 100)%Q in
        let diff_absolute := actual - estimated in
        Some (diff_percent, diff_absolute)
    end.

End TokenEstimator.

(** ** src/prompts/prompt_templates.py *)

Module Prompts.

Definition DQUOTE : ascii := Ascii.ascii_of_nat 34.

Definition nl : string := String Py.LF "".

(** The text of [get_cleanup_prompt] in front of the document. *)
Definition cleanup_instructions : string :=
  nl
  +:+ "This document has been created by an LLM by scanning images of a PDF and forms part of a larger document."
  +:+ nl
  +:+ "Ensure the formatting is coherent and the structure is correct."
  +:+ nl
  +:+ "Remove any mention of " +:+ String DQUOTE "markdown" +:+ String DQUOTE ""
  +:+ " from the top and don't add anything new."
  +:+ nl.

Definition get_cleanup_prompt (document_content : string) : string :=
  cleanup_instructions +:+ document_content +:+ nl.

End Prompts.

(** ** The completion service and the effects of a run *)

Module Run.

(** A raised [Exception], by its message [str(e)]. *)
Definition exn := string.

(** [response.usage]: the attribute can be missing, be [None], or hold
    [total_tokens]. *)
Inductive usage_field :=
| UsageMissing
| UsageNone
| Usage (total_tokens : Z).

(** [response.choices[0].message.content]: a string, [None], or a read that
    raises [e] (no choice, no message). *)
Inductive content_field :=
| Content (text : string)
| ContentNone
| ContentUnreadable (e : exn).

(** What the code reads of a completion. *)
Record response := Response { content : content_field; usage : usage_field }.

(** A completion with a text, and with a usage or without the attribute. *)
Definition reply (text : string) (total_tokens : option Z) : response :=
  Response (Content text)
           match total_tokens with
           | Some n => Usage n
           | None => UsageMissing
           end.

(** [response.usage.total_tokens if hasattr(response, 'usage') else 0] *)
Definition read_usage (r : response) : exn + Z :=
  match usage r with
  | UsageMissing => inr 0
  | UsageNone => inl Py.usage_none_error
  | Usage n => inr n
  end.

(** [response.choices[0].message.content] *)
Definition read_content (r : response) : exn + option string :=
  match content r with
  | Content text => inr (Some text)
  | ContentNone => inr None
  | ContentUnreadable e => inl e
  end.

(** The content as the argument of [len]: it has to be a string. *)
Definition sized (c : option string) : exn + string :=
  match c with
  | Some text => inr text
  | None => inl Py.len_none_error
  end.

(** The service: the outcome of the request number [n] (from 0) of the
    run, given the message sent. *)
Definition service := nat -> string -> exn + response.

(** The messages sent so far, oldest first. *)
Definition world := list string.

(** A computation that may raise and that talks to the service. *)
Definition M (A : Type) : Type := world -> (exn + A) * world.

Definition ret {A} (a : A) : M A := fun w => (inr a, w).

(** A value, or the exception raised in its place. *)
Definition of_result {A} (r : exn + A) : M A := fun w => (r, w).

Definition bind {A B} (m : M A) (k : A -> M B) : M B :=
  fun w =>
    match m w with
    | (inl e, w') => (inl e, w')
    | (inr a, w') => k a w'
    end.

(** [try: body except Exception as e: handler e] *)
Definition try_except {A} (body : M A) (handler : exn -> M A) : M A :=
  fun w =>
    match body w with
    | (inl e, w') => handler e w'
    | (inr a, w') => (inr a, w')
    end.

(** [client.chat.completions.create(messages=[{role: user, content: msg}])] *)
Definition create (client : service) (msg : string) : M response :=
  fun w => (client (List.length w) msg, w ++ [msg]).

Definition run {A} (m : M A) : (exn + A) * world := m [].

End Run.

Notation "'do' x <- m ; k" := (Run.bind m (fun x => k))
  (at level 10, x name, m at level 100, k at level 200, only parsing).

(** ** src/main.py *)

Module Main.
Import Run Prompts.

Definition estimate_tokens_from_string (text : string) : Z :=
  Py.len text / 4.

Definition MAX_CHUNK_SIZE : Z := 6000.

(** *** Building the chunks: the first loop of [text_tidy_up] *)

Record chunker := Chunker {
  chunks : list string;
  current_chunk : list string;
  current_chunk_tokens : Z
}.

Definition chunker_init : chunker := Chunker [] [] 0.

(** One iteration of [for paragraph in paragraphs]. *)
Definition add_paragraph (st : chunker) (paragraph : string) : chunker :=
  let paragraph_tokens := estimate_tokens_from_string paragraph in
  if MAX_CHUNK_SIZE <? current_chunk_tokens st + paragraph_tokens then
    let chunk_text := Py.join Py.blank_line (current_chunk st) in
    Chunker (chunks st ++ [chunk_text]) [paragraph] paragraph_tokens
  else
    Chunker (chunks st)
            (current_chunk st ++ [paragraph])
            (current_chunk_tokens st + paragraph_tokens).

(** The loop, then [if current_chunk: chunks.append(...)]. *)
Definition build_chunks (paragraphs : list string) : list string :=
  let st := fold_left add_paragraph paragraphs chunker_init in
  match current_chunk st with
  | [] => chunks st
  | _ :: _ => chunks st ++ [Py.join Py.blank_line (current_chunk st)]
  end.

Definition split_into_chunks (full_document : string) : list string :=
  build_chunks (Py.split_blank_line full_document).

(** *** Processing the chunks: the second loop *)

(** [processed_chunks] holds what the code appends: the content of a
    response, which can be [None], or the chunk itself. *)
Record totals := Totals {
  processed_chunks : list (option string);
  total_prompt_tokens : Z;
  total_actual_tokens : Z
}.

Definition totals_init : totals := Totals [] 0 0.

Section WithClient.
Variable client : service.

Definition chunk_message (chunk : string) (i n : Z) : string :=
  get_cleanup_prompt chunk
  +:+ nl +:+ "This is part " +:+ Py.str i +:+ " of " +:+ Py.str n +:+ ".".

(** [processed_chunks.append(chunk)], the [except] branch. *)
Definition keep_original (t : totals) (chunk : string) : totals :=
  Totals (processed_chunks t ++ [Some chunk])
         (total_prompt_tokens t) (total_actual_tokens t).

(** The body of [for i, chunk in enumerate(chunks, 1)].  The totals are
    variables that the [try] body updates in place: an exception raised
    before the two additions leaves them as they were, one raised by the
    read of the content after them leaves them added.  The two handlers
    are the one [except] branch, at these two states. *)
Definition process_chunk (n : Z) (t : totals) (i : Z) (chunk : string)
  : M totals :=
  try_except
    (do chunk_response <- create client (chunk_message chunk i n);
     do chunk_actual_tokens <- of_result (read_usage chunk_response);
     let added :=
       Totals (processed_chunks t)
              (total_prompt_tokens t + estimate_tokens_from_string chunk)
              (total_actual_tokens t + chunk_actual_tokens) in
     try_except
       (do content <- of_result (read_content chunk_response);
        ret (Totals (processed_chunks added ++ [content])
                    (total_prompt_tokens added)
                    (total_actual_tokens added)))
       (fun e => ret (keep_original added chunk)))
    (fun e => ret (keep_original t chunk)).

Fixpoint process_chunks (n : Z) (i : Z) (todo : list string) (t : totals)
  : M totals :=
  match todo with
  | [] => ret t
  | chunk :: rest =>
      do t' <- process_chunk n t i chunk;
      process_chunks n (i + 1) rest t'
  end.

Definition single_shot (full_document : string) (prompt_tokens : Z)
  : M (string * Z * Z) :=
  try_except
    (do final_response <- create client (get_cleanup_prompt full_document);
     do actual_tokens <- of_result (read_usage final_response);
     do content <- of_result (read_content final_response);
     do text <- of_result (sized content);
     let completion_tokens := Py.len text / 4 in
     ret (text, prompt_tokens, actual_tokens))
    (fun e =>
       ret ("Error in tidy up: " +:+ e +:+ nl +:+ nl
            +:+ "Raw document content:" +:+ nl +:+ nl +:+ full_document,
            0, 0)).

(** The second loop and the final join, which is outside every [try]. *)
Definition cleanup_chunks (chunks : list string) : M (string * Z * Z) :=
  do t <- process_chunks (Z.of_nat (List.length chunks)) 1 chunks totals_init;
  do final_content <-
    of_result (Py.join_items Py.blank_line (processed_chunks t));
  ret (final_content, total_prompt_tokens t, total_actual_tokens t).

Definition chunked (full_document : string) : M (string * Z * Z) :=
  cleanup_chunks (split_into_chunks full_document).

Definition text_tidy_up (full_document : string) : M (string * Z * Z) :=
  let prompt_tokens :=
    estimate_tokens_from_string (get_cleanup_prompt full_document) in
  if prompt_tokens <=? MAX_CHUNK_SIZE
  then single_shot full_document prompt_tokens
  else chunked full_document.

End WithClient.

End Main.

(** * Vocabulary of the properties *)

(** ** The chunks as groups of paragraphs

    The first loop of [text_tidy_up] again, keeping every chunk as the list
    of its paragraphs instead of their join. *)

Module Grouping.
Import Main.

Record grouper := Grouper {
  closed : list (list string);
  open_group : list string;
  open_tokens : Z
}.

Definition grouper_init : grouper := Grouper [] [] 0.

Definition add_to_group (st : grouper) (paragraph : string) : grouper :=
  let paragraph_tokens := estimate_tokens_from_string paragraph in
  if MAX_CHUNK_SIZE <? open_tokens st + paragraph_tokens then
    Grouper (closed st ++ [open_group st]) [paragraph] paragraph_tokens
  else
    Grouper (closed st)
            (open_group st ++ [paragraph])
            (open_tokens st + paragraph_tokens).

Definition finish (st : grouper) : list (list string) :=
  match open_group st with
  | [] => closed st
  | _ :: _ => closed st ++ [open_group st]
  end.

Definition group_paragraphs (paragraphs : list string) : list (list string) :=
  finish (fold_left add_to_group paragraphs grouper_init).

(** The state of the source's loop that a grouping state stands for. *)
Definition erase (st : grouper) : chunker :=
  Chunker (map (Py.join Py.blank_line) (closed st))
          (open_group st) (open_tokens st).

(** What the loop compares with the budget: the estimates of the
    paragraphs, added up. *)
Definition sum_estimates (group : list string) : Z :=
  foldr (fun p acc => estimate_tokens_from_string p + acc) 0 group.

(** A group the loop accepts: within the budget, or one paragraph alone. *)
Definition within_budget (group : list string) : Prop :=
  sum_estimates group <= MAX_CHUNK_SIZE \/ List.length group = 1%nat.

(** The paragraphs taken so far. *)
Definition flat (st : grouper) : list string :=
  concat (closed st) ++ open_group st.

(** What the loop maintains about the budget. *)
Definition budget_ok (st : grouper) : Prop :=
  open_tokens st = sum_estimates (open_group st)
  /\ Forall within_budget (closed st)
  /\ within_budget (open_group st).

(** The characters of a chunk of [k] paragraphs that the sum of estimates
    leaves out: two for every separator and up to three of every
    paragraph. *)
Definition uncounted (k : nat) : Z := Z.max 0 (5 * Z.of_nat k - 2).

(** The first paragraph of a document. *)
Definition first_paragraph (full_document : string) : string :=
  hd "" (Py.split_blank_line full_document).

End Grouping.

(** ** Outcomes of the chunk requests *)

Module Outcomes.
Import Run Main.

Definition sumZ (l : list Z) : Z := foldr Z.add 0 l.

(** The chunks [todo] with the outcome of their requests, when the first of
    them is request number [k] of the run and part [i] of [n]. *)
Fixpoint chunk_results (client : service) (n : Z) (k : nat) (i : Z)
    (todo : list string) : list (string * (exn + response)) :=
  match todo with
  | [] => []
  | chunk :: rest =>
      (chunk, client k (chunk_message chunk i n))
        :: chunk_results client n (S k) (i + 1) rest
  end.

Fixpoint chunk_messages (n : Z) (i : Z) (todo : list string) : list string :=
  match todo with
  | [] => []
  | chunk :: rest => chunk_message chunk i n :: chunk_messages n (i + 1) rest
  end.

(** What stands for a chunk in the output: the text of the reply; the
    chunk itself when the request raises or the reply cannot be read; [None]
    when the content of the reply is [None]. *)
Definition output_of (r : string * (exn + response)) : option string :=
  match r with
  | (chunk, inl _) => Some chunk
  | (chunk, inr (Response _ UsageNone)) => Some chunk
  | (_, inr (Response (Content text) _)) => Some text
  | (_, inr (Response ContentNone _)) => None
  | (chunk, inr (Response (ContentUnreadable _) _)) => Some chunk
  end.

(** The chunk is counted: the request returned a reply whose usage could
    be read. *)
Definition counted (r : string * (exn + response)) : bool :=
  match r with
  | (_, inl _) => false
  | (_, inr (Response _ UsageNone)) => false
  | (_, inr (Response _ _)) => true
  end.

(** The chunk is cleaned: its place in the output holds the text of the
    reply. *)
Definition cleaned_up (r : string * (exn + response)) : bool :=
  match r with
  | (_, inr (Response (Content _) UsageMissing)) => true
  | (_, inr (Response (Content _) (Usage _))) => true
  | _ => false
  end.

(** The usage that the reply reports. *)
Definition reported (r : string * (exn + response)) : Z :=
  match r with
  | (_, inr (Response _ (Usage n))) => n
  | _ => 0
  end.

Definition actual_of (r : string * (exn + response)) : Z :=
  if counted r then reported r else 0.

Definition estimated_of (r : string * (exn + response)) : Z :=
  if counted r then estimate_tokens_from_string (fst r) else 0.

(** What the code makes of the outcome of a request where every read of
    the reply is inside the [try]: the text and the usage of the reply, or
    the message of the exception raised, by the request or by a read. *)
Definition read_reply (outcome : exn + response) : exn + string * Z :=
  match outcome with
  | inl e => inl e
  | inr (Response _ UsageNone) => inl Py.usage_none_error
  | inr (Response (ContentUnreadable e) _) => inl e
  | inr (Response ContentNone _) => inl Py.len_none_error
  | inr (Response (Content text) UsageMissing) => inr (text, 0)
  | inr (Response (Content text) (Usage n)) => inr (text, n)
  end.

(** The requests of a run that took the single-shot path, and of one that
    took the chunked path. *)
Definition single_shot_requests (full_document : string) : list string :=
  [Prompts.get_cleanup_prompt full_document].

Definition chunked_requests (full_document : string) : list string :=
  let chunks := split_into_chunks full_document in
  chunk_messages (Z.of_nat (List.length chunks)) 1 chunks.

Definition requests_of (client : service) (full_document : string)
  : list string :=
  snd (run (text_tidy_up client full_document)).

Fixpoint last_char (s : string) : option ascii :=
  match s with
  | "" => None
  | String c "" => Some c
  | String _ rest => last_char rest
  end.

End Outcomes.

(** ** Statements that the code is compared with *)

Module Stated.
Import Main.

(** A chunk that is one paragraph: it holds no blank line. *)
Definition single_paragraph (chunk : string) : Prop :=
  Py.split_blank_line chunk = [chunk].

(** The chunk-size bound on the chunk texts: every chunk but at most one,
    which is then a single paragraph, is estimated within the budget. *)
Definition chunk_size_bound (full_document : string) : Prop :=
  exists exempt : option nat,
    forall (i : nat) (chunk : string),
      split_into_chunks full_document !! i = Some chunk ->
      estimate_tokens_from_string chunk <= MAX_CHUNK_SIZE
      \/ (exempt = Some i /\ single_paragraph chunk).

(** The image estimate with rounding to the nearest integer. *)
Definition rounded_image_tokens (detail : string) : Z :=
  let base := default 150 (Config.IMAGE_TOKEN_BASE !! detail) in
  Py.round (inject_Z base * Config.IMAGE_TOKEN_MULTIPLIER)%Q.

End Stated.

(** ** Documents used as examples *)

Module Inputs.

(** One paragraph of 24004 characters, estimated at 6001 tokens. *)
Definition just_over_budget : string := Py.repeat_char "a" 24004.

(** One paragraph of 32000 characters, estimated at 8000 tokens. *)
Definition oversized_paragraph : string := Py.repeat_char "a" 32000.

(** Two paragraphs of 12003 characters, estimated at 3000 tokens each. *)
Definition two_paragraphs : string :=
  Py.repeat_char "a" 12003 +:+ Py.blank_line +:+ Py.repeat_char "a" 12003.

(** A document whose cleanup prompt is estimated at 6000 tokens exactly. *)
Definition at_budget : string := Py.repeat_char "a" 23754.

(** A short document. *)
Definition short_document : string := "# Title".

(** A service that is down. *)
Definition failing_client : Run.service := fun _ _ => inl "timeout".

(** A service that answers the first request only. *)
Definition first_only (resp : Run.response) (e : Run.exn) : Run.service :=
  fun k _ => match k with O => inr resp | S _ => inl e end.

End Inputs.

(** ** Greedy packing *)

Module Greedy.
Import Main Grouping.

(** The group [g] was closed because the first paragraph of [next] did not
    fit in it. *)
Definition cannot_take (g next : list string) : Prop :=
  match next with
  | [] => True
  | p :: _ => MAX_CHUNK_SIZE < sum_estimates g + estimate_tokens_from_string p
  end.

(** Every group but the last was closed for that reason. *)
Fixpoint greedy (groups : list (list string)) : Prop :=
  match groups with
  | [] => True
  | g :: rest =>
      match rest with
      | [] => True
      | next :: _ => cannot_take g next
      end /\ greedy rest
  end.

(** What the loop maintains about it. *)
Definition greedy_ok (st : grouper) : Prop :=
  greedy (closed st ++ [open_group st])
  /\ open_tokens st = sum_estimates (open_group st)
  /\ (open_group st = [] -> closed st = []).

End Greedy.

(** ** More documents used as examples *)

Module MoreInputs.

(** One paragraph of 23760 characters: 5940 tokens, and 6001 with the
    cleanup prompt around it. *)
Definition fits_without_prompt : string := Py.repeat_char "a" 23760.

(** A response with its usage, and one without. *)
Definition cleaned : Run.response := Run.reply "# Title" (Some 70).
Definition cleaned_no_usage : Run.response := Run.reply "# Title" None.

(** A response that reports 50 tokens and has no choice to read. *)
Definition no_choice : Run.response :=
  Run.Response (Run.ContentUnreadable "list index out of range")
               (Run.Usage 50).

(** A response that reports 50 tokens and whose content is [None]. *)
Definition none_content : Run.response :=
  Run.Response Run.ContentNone (Run.Usage 50).

(** Three paragraphs of 12000 characters, estimated at 3000 tokens each:
    scenario B. *)
Definition three_paragraphs : string :=
  Py.repeat_char "a" 12000 +:+ Py.blank_line
  +:+ Py.repeat_char "a" 12000 +:+ Py.blank_line
  +:+ Py.repeat_char "a" 12000.

(** A service that gives the same response to every request. *)
Definition always (resp : Run.response) : Run.service := fun _ _ => inr resp.

(** A service that gives [first] to the first request and [then_] to the
    others. *)
Definition first_then (first then_ : Run.response) : Run.service :=
  fun k _ => match k with O => inr first | S _ => inr then_ end.

End MoreInputs.

(** * The rest of the code *)

(** ** src/prompts/prompt_templates.py: the page prompts

    The two box-drawing characters of the interpretation prompt, U+251C and
    U+2500, are one character each, here the bytes that stand for them in
    code page 437. *)

Module PagePrompts.
Import Prompts.

Definition BOX_TEE : ascii := Ascii.ascii_of_nat 195.
Definition BOX_DASH : ascii := Ascii.ascii_of_nat 196.

(** The branch mark of the chart in the prompt: tee, dash, dash. *)
Definition branch : string :=
  String BOX_TEE (String BOX_DASH (String BOX_DASH "")).

Definition get_interpretation_prompt : string :=
  nl
  +:+ "1. Convert the image to a markdown document, being aware that it forms part of a larger multipage document."
  +:+ nl
  +:+ "2. Preserve the original formatting of the document where possible."
  +:+ nl
  +:+ "3. Ensure tables are scanned and converted to markdown tables."
  +:+ nl
  +:+ "4. For organisational charts or diagrams, attempt to create a text based representation of the diagram that "
  +:+ nl
  +:+ "```" +:+ nl
  +:+ "Manager 1" +:+ nl
  +:+ "    " +:+ branch +:+ " Sub manager 1" +:+ nl
  +:+ "        " +:+ branch +:+ " Sub manager 4" +:+ nl
  +:+ "```" +:+ nl
  +:+ "5. Don't add any text that is not in the original document."
  +:+ nl
  +:+ "6. Look for any page numbers and add them to the top of the page with the text "
  +:+ String DQUOTE "Page X" +:+ String DQUOTE ""
  +:+ nl
  +:+ "7. Look for any headers or footers that indicate the title or effective date of the document. Only include the title at the top of the text."
  +:+ nl
  +:+ "    ".

Definition get_text_page_prompt (text : string) (page_number total_pages : Z)
  : string :=
  "Please process this text from page " +:+ Py.str page_number
  +:+ " of " +:+ Py.str total_pages +:+ "." +:+ nl
  +:+ get_interpretation_prompt +:+ nl
  +:+ nl
  +:+ "TEXT CONTENT:" +:+ nl
  +:+ text.

End PagePrompts.

(** ** src/main.py: the pages

    A request for a page carries a text, or a text and an image; the
    requests of the pages and those of the cleanup go to the same service,
    one after the other. *)

Module Pages.
Import Prompts PagePrompts Main.

Inductive part :=
| TextPart (text : string)
| ImageUrlPart (url : string).

(** The [content] of the message of a request. *)
Inductive message :=
| Text (content : string)
| Parts (content : list part).

Definition service := nat -> message -> Run.exn + Run.response.

Definition world := list message.

Definition M (A : Type) : Type := world -> (Run.exn + A) * world.

Definition ret {A} (a : A) : M A := fun w => (inr a, w).

Definition bind {A B} (m : M A) (k : A -> M B) : M B :=
  fun w =>
    match m w with
    | (inl e, w') => (inl e, w')
    | (inr a, w') => k a w'
    end.

Definition try_except {A} (body : M A) (handler : Run.exn -> M A) : M A :=
  fun w =>
    match body w with
    | (inl e, w') => handler e w'
    | (inr a, w') => (inr a, w')
    end.

(** A value, or the exception raised in its place. *)
Definition of_result {A} (r : Run.exn + A) : M A := fun w => (r, w).

Definition create (client : service) (msg : message) : M Run.response :=
  fun w => (client (List.length w) msg, w ++ [msg]).

Definition run {A} (m : M A) : (Run.exn + A) * world := m [].

(** The service as a text-only computation sees it after [before]
    requests. *)
Definition text_service (client : service) (before : nat) : Run.service :=
  fun k msg => client (before + k)%nat (Text msg).

(** A text-only computation, run at this point of the session. *)
Definition lift {A} (client : service) (m : Run.service -> Run.M A) : M A :=
  fun w =>
    let '(result, sent) := Run.run (m (text_service client (List.length w))) in
    (result, w ++ map Text sent).

End Pages.

Notation "'dop' x <- m ; k" := (Pages.bind m (fun x => k))
  (at level 10, x name, m at level 100, k at level 200, only parsing).

Module MainPages.
Import Prompts PagePrompts Main Pages.

(** [estimate_image_tokens(base64_string, detail)] of [main.py]; the
    product is exact in binary64. *)
Definition estimate_image_tokens (base64_string detail : string) : Z :=
  let image_tokens := if decide (detail = "high") then 525 else 150 in
  let prompt_tokens := estimate_tokens_from_string get_interpretation_prompt in
  Py.int_of (inject_Z (image_tokens + prompt_tokens) * (7 # 4))%Q.

(** [encode_image_to_base64]: the image comes as its base64 text, which is
    what [PIL] and [base64] make of it. *)
Definition encode_image_to_base64 (image : string) : string * Z :=
  let base64_string := image in
  let token_estimate := estimate_image_tokens base64_string "high" in
  (base64_string, token_estimate).

Definition error_processing_page (page_number : Z) (e : Run.exn) : string :=
  "Error processing page " +:+ Py.str page_number +:+ ": " +:+ e.

Definition image_message (base64_image : string) : message :=
  Parts [TextPart get_interpretation_prompt;
         ImageUrlPart ("data:image/png;base64," +:+ base64_image)].

Definition text_message (text : string) (page_number total_pages : Z)
  : message :=
  Text (get_text_page_prompt text page_number total_pages).

(** [combine_page_content] *)
Definition combine_page_content (all_pages_data : list (string * Z * Z))
  : string :=
  let content_only := map (fun d => fst (fst d)) all_pages_data in
  Py.join nl content_only.

(** What [pdfplumber] and [pdf2image] give for a page: the verdict and the
    text of [is_page_text_only], and the image. *)
Record page := Page {
  is_text : bool;
  extracted_text : string;
  image : string
}.

Record tally := Tally {
  all_pages_data : list (string * Z * Z);
  total_estimated_tokens : Z;
  total_actual_tokens : Z
}.

Definition tally_init : tally := Tally [] 0 0.

Section WithClient.
Variable client : service.

Definition interpret_page (image : string) (page_number total_pages : Z)
  : M (string * Z * Z) :=
  let '(base64_image, image_tokens) := encode_image_to_base64 image in
  let prompt_tokens := estimate_tokens_from_string get_interpretation_prompt in
  try_except
    (dop response <- create client (image_message base64_image);
     dop actual_tokens <- of_result (Run.read_usage response);
     dop content <- of_result (Run.read_content response);
     dop text <- of_result (Run.sized content);
     let completion_tokens := Py.len text / 4 in
     let total_page_tokens_estimate :=
       prompt_tokens + image_tokens + completion_tokens in
     ret (text, total_page_tokens_estimate, actual_tokens))
    (fun e => ret (error_processing_page page_number e, 0, 0)).

Definition process_text_page (text : string) (page_number total_pages : Z)
  : M (string * Z * Z) :=
  try_except
    (let prompt_tokens := estimate_tokens_from_string text in
     dop response <- create client (text_message text page_number total_pages);
     dop actual_tokens <- of_result (Run.read_usage response);
     dop content <- of_result (Run.read_content response);
     dop answer <- of_result (Run.sized content);
     let completion_tokens := Py.len answer / 4 in
     let total_page_tokens_estimate := prompt_tokens + completion_tokens in
     ret (answer, total_page_tokens_estimate, actual_tokens))
    (fun e => ret (error_processing_page page_number e, 0, 0)).

(** The body of [for page_number in range(total_pages)]. *)
Definition process_page (total_pages : Z) (t : tally) (page_number : Z)
    (p : page) : M tally :=
  dop data <-
    (if is_text p
     then process_text_page (extracted_text p) (page_number + 1) total_pages
     else interpret_page (image p) (page_number + 1) total_pages);
  ret (Tally (all_pages_data t ++ [data])
             (total_estimated_tokens t + snd (fst data))
             (total_actual_tokens t + snd data)).

Fixpoint process_pages (total_pages : Z) (page_number : Z)
    (todo : list page) (t : tally) : M tally :=
  match todo with
  | [] => ret t
  | p :: rest =>
      dop t' <- process_page total_pages t page_number p;
      process_pages total_pages (page_number + 1) rest t'
  end.

(** [process_pdf]: the text it saves and the two totals it returns. *)
Definition process_pdf (pages : list page) : M (string * Z * Z) :=
  let total_pages := Z.of_nat (List.length pages) in
  dop t <- process_pages total_pages 0 pages tally_init;
  let full_document := combine_page_content (all_pages_data t) in
  dop tidy <- lift client (fun c => text_tidy_up c full_document);
  let final_content := fst (fst tidy) in
  let analysis_estimated_tokens := snd (fst tidy) in
  let analysis_actual_tokens := snd tidy in
  ret (final_content,
       total_estimated_tokens t + analysis_estimated_tokens,
       total_actual_tokens t + analysis_actual_tokens).

End WithClient.

End MainPages.

(** ** run.py: a file name that is free

    The file system and the functions of [os.path] are parameters.  The
    loop [while True] runs for at most [fuel] rounds; [None] is a loop that
    is still running then. *)

Module RunPy.

Section FileSystem.
Variable path_exists : string -> bool.
Variable dirname basename : string -> string.
Variable splitext : string -> string * string.
Variable path_join : string -> string -> string.

(** The name tried for [counter]. *)
Definition numbered (base_path : string) (counter : Z) : string :=
  let directory := dirname base_path in
  let filename := fst (splitext (basename base_path)) in
  let extension := snd (splitext base_path) in
  path_join directory (filename +:+ " " +:+ Py.str counter +:+ extension).

Fixpoint search (base_path : string) (fuel : nat) (counter : Z)
  : option string :=
  match fuel with
  | O => None
  | S fuel' =>
      let new_filename := numbered base_path counter in
      if negb (path_exists new_filename) then Some new_filename
      else search base_path fuel' (counter + 1)
  end.

Definition get_unique_filename (fuel : nat) (base_path : string)
  : option string :=
  if negb (path_exists base_path) then Some base_path
  else search base_path fuel 2.

End FileSystem.

End RunPy.

(** ** Vocabulary for the pages *)

Module PageOutcomes.
Import PagePrompts Main Pages MainPages.

Definition page_message (total_pages : Z) (page_number : Z) (p : page)
  : message :=
  if is_text p
  then text_message (extracted_text p) (page_number + 1) total_pages
  else image_message (image p).

(** What a page contributes, given the outcome of its request. *)
Definition page_data (page_number : Z) (p : page)
    (outcome : Run.exn + Run.response) : string * Z * Z :=
  match Outcomes.read_reply outcome with
  | inl e => (error_processing_page (page_number + 1) e, 0, 0)
  | inr (text, reported) =>
      (text,
       (if is_text p
        then estimate_tokens_from_string (extracted_text p)
        else 1405)
       + estimate_tokens_from_string text,
       reported)
  end.

(** The data of the pages [todo], when the first of them is request [k]
    of the session and page [i] (from 0) of [n]. *)
Fixpoint pages_data (client : service) (n : Z) (k : nat) (i : Z)
    (todo : list page) : list (string * Z * Z) :=
  match todo with
  | [] => []
  | p :: rest =>
      page_data i p (client k (page_message n i p))
        :: pages_data client n (S k) (i + 1) rest
  end.

Fixpoint page_messages (n : Z) (i : Z) (todo : list page) : list message :=
  match todo with
  | [] => []
  | p :: rest => page_message n i p :: page_messages n (i + 1) rest
  end.

Definition estimates (data : list (string * Z * Z)) : list Z :=
  map (fun d => snd (fst d)) data.

Definition actuals (data : list (string * Z * Z)) : list Z :=
  map (fun d => snd d) data.

Definition contents (data : list (string * Z * Z)) : list string :=
  map (fun d => fst (fst d)) data.

(** The contents of the pages [todo] when every request fails with [e]. *)
Fixpoint error_lines (e : Run.exn) (i : Z) (todo : list page) : list string :=
  match todo with
  | [] => []
  | _ :: rest =>
      error_processing_page (i + 1) e :: error_lines e (i + 1) rest
  end.

(** A service that is down, and a document of a text page and an image
    page. *)
Definition down : service := fun _ _ => inl "timeout".

Definition two_pages : list page :=
  [Page true "Hello" ""; Page false "" "iVBORw0KGgo="].

End PageOutcomes.

(** ** A small file system *)

Module SmallFs.

(** Two files are there: [notes.md] and [notes 2.md]. *)
Definition path_exists (p : string) : bool :=
  String.eqb p "notes.md" || String.eqb p "notes 2.md".

(** [os.path] on names without a directory and with the extension [.md]. *)
Definition dirname (p : string) : string := "".
Definition basename (p : string) : string := p.
Definition splitext (p : string) : string * string :=
  (String.substring 0 (String.length p - 3) p,
   String.substring (String.length p - 3) 3 p).
Definition path_join (d f : string) : string :=
  match d with "" => f | _ => d +:+ "/" +:+ f end.

End SmallFs.

(** * Facts about the Python primitives *)

Section PyFacts.
Import Py.

Lemma len_nonneg s : 0 <= len s.
Proof. unfold len. lia. Qed.

Lemma len_String c s : len (String c s) = 1 + len s.
Proof. unfold len. cbn [String.length]. lia. Qed.

Lemma len_app s t : len (s +:+ t) = len s + len t.
Proof.
  induction s as [|c s IH]; [reflexivity|].
  change (String c s +:+ t) with (String c (s +:+ t)).
  rewrite !len_String, IH. lia.
Qed.

Lemma repeat_char_succ c n :
  repeat_char c (N.succ n) = String c (repeat_char c n).
Proof. unfold repeat_char. now rewrite N.iter_succ. Qed.

Lemma len_repeat_char c n : len (repeat_char c n) = Z.of_N n.
Proof.
  induction n as [|n IH] using N.peano_ind; [reflexivity|].
  rewrite repeat_char_succ, len_String, IH. lia.
Qed.

Lemma split_two c1 c2 r :
  split_blank_line (String c1 (String c2 r))
  = if is_LF c1 && is_LF c2
    then "" :: split_blank_line r
    else push_char c1 (split_blank_line (String c2 r)).
Proof. reflexivity. Qed.

Lemma push_char_nonempty c l : push_char c l <> [].
Proof. destruct l; done. Qed.

Lemma split_nonempty s : split_blank_line s <> [].
Proof.
  destruct s as [|c1 [|c2 r]]; [done | done |].
  rewrite split_two.
  destruct (is_LF c1 && is_LF c2); [done | apply push_char_nonempty].
Qed.

Lemma join_cons sep x l :
  l <> [] -> join sep (x :: l) = x +:+ sep +:+ join sep l.
Proof. destruct l; [congruence | reflexivity]. Qed.

Lemma join_push_char sep c l :
  l <> [] -> join sep (push_char c l) = String c (join sep l).
Proof. destruct l as [|x [|y l]]; [congruence | reflexivity | reflexivity]. Qed.

Lemma is_LF_true c : is_LF c = true -> c = LF.
Proof. unfold is_LF. apply Ascii.eqb_eq. Qed.

(** Splitting on the blank line and joining again loses nothing. *)
Lemma join_split s : join blank_line (split_blank_line s) = s.
Proof.
  enough (H : join blank_line (split_blank_line s) = s /\
              forall c, join blank_line (split_blank_line (String c s))
                        = String c s) by apply H.
  induction s as [|c2 r [IH1 IH2]]; [split; reflexivity|].
  split; [apply IH2|]. intros c1.
  rewrite split_two.
  destruct (is_LF c1 && is_LF c2) eqn:E.
  - apply andb_prop in E as [->%is_LF_true ->%is_LF_true].
    rewrite join_cons by apply split_nonempty. now rewrite IH1.
  - rewrite join_push_char by apply split_nonempty. now rewrite IH2.
Qed.

(** A run of one character other than the line feed is one paragraph. *)
Lemma split_repeat_char c n :
  is_LF c = false ->
  split_blank_line (repeat_char c n) = [repeat_char c n].
Proof.
  intros Hc. induction n as [|n IH] using N.peano_ind; [reflexivity|].
  rewrite repeat_char_succ. revert IH.
  destruct n as [|p] using N.peano_ind; [reflexivity|].
  rewrite repeat_char_succ. intros IH.
  rewrite split_two, Hc. cbn [andb].
  now rewrite IH.
Qed.

(** ... and in front of a blank line it is the first paragraph. *)
Lemma split_repeat_char_app c n rest :
  is_LF c = false ->
  split_blank_line (repeat_char c n +:+ blank_line +:+ rest)
  = repeat_char c n :: split_blank_line rest.
Proof.
  intros Hc. induction n as [|n IH] using N.peano_ind.
  - cbn. reflexivity.
  - rewrite repeat_char_succ.
    change (String c (repeat_char c n) +:+ blank_line +:+ rest)
      with (String c (repeat_char c n +:+ blank_line +:+ rest)).
    remember (repeat_char c n +:+ blank_line +:+ rest) as tail eqn:Et.
    destruct tail as [|c2 r].
    + destruct (repeat_char c n); discriminate.
    + rewrite split_two, Hc. cbn [andb].
      now rewrite IH.
Qed.

(** *** Checks on small inputs *)

Example split_no_separator : split_blank_line "abc" = ["abc"].
Proof. reflexivity. Qed.

Example split_two_paragraphs :
  split_blank_line ("ab" +:+ blank_line +:+ "c") = ["ab"; "c"].
Proof. reflexivity. Qed.

Example split_three_line_feeds :
  split_blank_line ("a" +:+ blank_line +:+ String LF "b")
  = ["a"; String LF "b"].
Proof. reflexivity. Qed.

Example split_leading_and_trailing :
  split_blank_line (blank_line +:+ "a" +:+ blank_line) = [""; "a"; ""].
Proof. reflexivity. Qed.

Example join_three : join ", " ["a"; "b"; "c"] = "a, b, c".
Proof. reflexivity. Qed.

Example str_of_twelve : str 12 = "12".
Proof. reflexivity. Qed.

Example round_ties_to_even : round (5 # 2) = 2 /\ round (7 # 2) = 4.
Proof. split; reflexivity. Qed.

Example round_nearest : round (9 # 4) = 2 /\ round (11 # 4) = 3.
Proof. split; reflexivity. Qed.

Example int_truncates : int_of (11 # 4) = 2 /\ int_of (-(11 # 4)) = -2.
Proof. split; reflexivity. Qed.

End PyFacts.

(** * Facts about the chunks *)

Section ChunkFacts.
Import Py Main Grouping.

Lemma str_app_assoc (a b c : string) : (a +:+ b) +:+ c = a +:+ (b +:+ c).
Proof.
  induction a as [|x a IH]; [reflexivity|].
  change (String x ((a +:+ b) +:+ c) = String x (a +:+ (b +:+ c))).
  now rewrite IH.
Qed.

Lemma join_app sep (l1 l2 : list string) :
  l1 <> [] -> l2 <> [] ->
  join sep (l1 ++ l2) = join sep l1 +:+ sep +:+ join sep l2.
Proof.
  intros H1 H2. induction l1 as [|x l1 IH]; [congruence|].
  destruct l1 as [|y l1].
  - cbn [app]. now rewrite join_cons.
  - change ((x :: y :: l1) ++ l2) with (x :: ((y :: l1) ++ l2)).
    rewrite !join_cons by discriminate. rewrite IH by discriminate.
    now rewrite !str_app_assoc.
Qed.

(** Joining the joins of non-empty groups is joining all the paragraphs. *)
Lemma join_concat sep (groups : list (list string)) :
  Forall (fun g => g <> []) groups ->
  join sep (map (join sep) groups) = join sep (concat groups).
Proof.
  induction 1 as [|g groups Hg HF IH]; [reflexivity|].
  cbn [map concat]. destruct groups as [|g' groups].
  - cbn. now rewrite app_nil_r.
  - rewrite join_cons by discriminate. rewrite IH.
    inversion HF as [|? ? Hg' _]; subst.
    rewrite join_app; [reflexivity | assumption |].
    cbn [concat]. destruct g'; [congruence | discriminate].
Qed.

Lemma erase_add st p : add_paragraph (erase st) p = erase (add_to_group st p).
Proof.
  unfold add_paragraph, add_to_group, erase. cbn.
  destruct (MAX_CHUNK_SIZE <? open_tokens st + estimate_tokens_from_string p);
    cbn; [now rewrite map_app | reflexivity].
Qed.

Lemma erase_fold ps st :
  fold_left add_paragraph ps (erase st) = erase (fold_left add_to_group ps st).
Proof.
  revert st. induction ps as [|p ps IH]; intros st; [reflexivity|].
  cbn [fold_left]. now rewrite erase_add, IH.
Qed.

(** The chunks are the joins of the groups. *)
Lemma build_chunks_groups ps :
  build_chunks ps = map (join blank_line) (group_paragraphs ps).
Proof.
  unfold build_chunks, group_paragraphs, finish.
  change chunker_init with (erase grouper_init). rewrite erase_fold.
  cbn [erase current_chunk chunks].
  destruct (open_group _); [reflexivity | now rewrite map_app].
Qed.

(** *** The groups are the paragraphs, in order *)

Lemma flat_add st p : flat (add_to_group st p) = flat st ++ [p].
Proof.
  unfold flat, add_to_group.
  destruct (MAX_CHUNK_SIZE <? _); cbn.
  - rewrite concat_app. cbn. now rewrite app_nil_r.
  - now rewrite app_assoc.
Qed.

Lemma flat_fold ps st : flat (fold_left add_to_group ps st) = flat st ++ ps.
Proof.
  revert st. induction ps as [|p ps IH]; intros st; cbn [fold_left].
  - now rewrite app_nil_r.
  - rewrite IH, flat_add, <- app_assoc. reflexivity.
Qed.

Lemma concat_finish st : concat (finish st) = flat st.
Proof.
  unfold finish, flat. destruct (open_group st) eqn:E.
  - now rewrite app_nil_r.
  - rewrite concat_app. cbn. now rewrite app_nil_r.
Qed.

Lemma concat_group_paragraphs ps : concat (group_paragraphs ps) = ps.
Proof. unfold group_paragraphs. now rewrite concat_finish, flat_fold. Qed.

(** *** Every group is within the budget or a single paragraph *)

Lemma sum_estimates_app g p :
  sum_estimates (g ++ [p]) = sum_estimates g + estimate_tokens_from_string p.
Proof.
  induction g as [|q g IH]; cbn; [lia|].
  fold (sum_estimates (g ++ [p])). fold (sum_estimates g). lia.
Qed.

Lemma budget_ok_init : budget_ok grouper_init.
Proof.
  repeat split; [constructor|]. left. cbn. unfold MAX_CHUNK_SIZE. lia.
Qed.

Lemma budget_ok_add st p : budget_ok st -> budget_ok (add_to_group st p).
Proof.
  intros (Htok & Hclosed & Hopen). unfold add_to_group.
  destruct (Z.ltb_spec MAX_CHUNK_SIZE
              (open_tokens st + estimate_tokens_from_string p)) as [Hlt|Hge].
  - repeat split; cbn.
    + lia.
    + apply Forall_app. split; [assumption | now constructor].
    + now right.
  - repeat split; cbn.
    + rewrite sum_estimates_app. lia.
    + assumption.
    + left. rewrite sum_estimates_app. lia.
Qed.

Lemma budget_ok_fold ps st :
  budget_ok st -> budget_ok (fold_left add_to_group ps st).
Proof.
  revert st. induction ps as [|p ps IH]; intros st H; [assumption|].
  cbn [fold_left]. now apply IH, budget_ok_add.
Qed.

Lemma within_budget_groups ps : Forall within_budget (group_paragraphs ps).
Proof.
  unfold group_paragraphs, finish.
  destruct (budget_ok_fold ps _ budget_ok_init) as (_ & Hclosed & Hopen).
  destruct (open_group _) eqn:E; [assumption|].
  apply Forall_app. split; [assumption | now constructor].
Qed.

(** *** Only the first chunk can be empty *)

Lemma open_group_add st p : open_group (add_to_group st p) <> [].
Proof.
  unfold add_to_group. destruct (MAX_CHUNK_SIZE <? _); cbn; [done|].
  destruct (open_group st); done.
Qed.

Lemma closed_fold ps st :
  open_group st <> [] ->
  open_group (fold_left add_to_group ps st) <> []
  /\ exists extra,
       closed (fold_left add_to_group ps st) = closed st ++ extra
       /\ Forall (fun g => g <> []) extra.
Proof.
  revert st. induction ps as [|p ps IH]; intros st Hopen; cbn [fold_left].
  - split; [assumption|]. exists []. now rewrite app_nil_r.
  - destruct (IH (add_to_group st p) (open_group_add st p))
      as (Hopen' & extra & Hclosed & Hextra).
    split; [assumption|]. rewrite Hclosed. unfold add_to_group.
    destruct (MAX_CHUNK_SIZE <? _); cbn.
    + exists (open_group st :: extra). rewrite <- app_assoc.
      split; [reflexivity | now constructor].
    + now exists extra.
Qed.

(** The groups of a document: non-empty ones, after an empty one when the
    first paragraph alone is over the budget. *)
Lemma group_paragraphs_cons p ps :
  exists groups,
    Forall (fun g => g <> []) groups /\ groups <> []
    /\ group_paragraphs (p :: ps)
       = if MAX_CHUNK_SIZE <? estimate_tokens_from_string p
         then [] :: groups else groups.
Proof.
  unfold group_paragraphs. cbn [fold_left].
  destruct (closed_fold ps (add_to_group grouper_init p)
              (open_group_add _ _)) as (Hopen & extra & Hclosed & Hextra).
  exists (extra ++ [open_group (fold_left add_to_group ps
                                  (add_to_group grouper_init p))]).
  split; [apply Forall_app; split; [assumption | now constructor]|].
  split; [destruct extra; done|].
  unfold finish. rewrite Hclosed.
  destruct (open_group (fold_left _ _ _)) eqn:E; [congruence|].
  unfold add_to_group, grouper_init. cbn [open_tokens closed open_group].
  rewrite Z.add_0_l.
  destruct (MAX_CHUNK_SIZE <? estimate_tokens_from_string p); reflexivity.
Qed.

(** What joining the chunks gives: the document, after a blank line when
    the first paragraph alone is over the budget. *)
Lemma join_chunks D :
  join blank_line (split_into_chunks D)
  = if MAX_CHUNK_SIZE <? estimate_tokens_from_string (first_paragraph D)
    then blank_line +:+ D else D.
Proof.
  unfold split_into_chunks, first_paragraph.
  rewrite build_chunks_groups.
  pose proof (concat_group_paragraphs (split_blank_line D)) as Hcat.
  pose proof (join_split D) as Hjoin.
  destruct (split_blank_line D) as [|p ps] eqn:E;
    [now apply split_nonempty in E|].
  destruct (group_paragraphs_cons p ps) as (groups & Hne & Hgroups & Heq).
  cbn [hd]. rewrite Heq in Hcat |- *.
  destruct (MAX_CHUNK_SIZE <? estimate_tokens_from_string p).
  - cbn [map concat app] in Hcat |- *.
    rewrite join_cons by (destruct groups; done).
    rewrite join_concat by assumption. rewrite Hcat, Hjoin. reflexivity.
  - rewrite join_concat by assumption. now rewrite Hcat.
Qed.

(** Chunking loses nothing when the first paragraph fits the budget. *)
Lemma join_chunks_first_fits D :
  estimate_tokens_from_string (first_paragraph D) <= MAX_CHUNK_SIZE ->
  join blank_line (split_into_chunks D) = D.
Proof.
  intros H. rewrite join_chunks.
  destruct (Z.ltb_spec MAX_CHUNK_SIZE
              (estimate_tokens_from_string (first_paragraph D))); [lia|done].
Qed.

End ChunkFacts.

(** * Facts about the requests *)

Section RequestFacts.
Import Py Run Prompts Main Outcomes.
Variable client : service.

Lemma process_chunk_run n t i chunk w :
  process_chunk client n t i chunk w
  = (let r := (chunk, client (List.length w) (chunk_message chunk i n)) in
     inr (Totals (processed_chunks t ++ [output_of r])
                 (total_prompt_tokens t + estimated_of r)
                 (total_actual_tokens t + actual_of r)),
     w ++ [chunk_message chunk i n]).
Proof.
  unfold process_chunk, keep_original, try_except, bind, create, of_result,
    ret, read_usage, read_content.
  destruct (client (List.length w) (chunk_message chunk i n))
    as [e|[[text| |e] [| |u]]];
    cbn; rewrite ?Z.add_0_r; reflexivity.
Qed.

Lemma process_chunks_run n todo :
  forall i t w,
    let results := chunk_results client n (List.length w) i todo in
    process_chunks client n i todo t w
    = (inr (Totals
              (processed_chunks t ++ map output_of results)
              (total_prompt_tokens t + sumZ (map estimated_of results))
              (total_actual_tokens t + sumZ (map actual_of results))),
       w ++ chunk_messages n i todo).
Proof.
  induction todo as [|chunk rest IH]; intros i t w; cbn zeta.
  - cbn. rewrite !app_nil_r, !Z.add_0_r. now destruct t.
  - cbn [process_chunks chunk_results chunk_messages map].
    unfold bind at 1. rewrite process_chunk_run. cbv beta iota zeta.
    rewrite IH; cbn [processed_chunks total_prompt_tokens
                     total_actual_tokens];
      rewrite length_app, Nat.add_1_r, <- !app_assoc;
      unfold sumZ; cbn [app foldr];
      repeat first [reflexivity | lia | f_equal].
Qed.

(** The outcome of the second loop and of the final join. *)
Lemma cleanup_chunks_run chunks :
  let results :=
    chunk_results client (Z.of_nat (List.length chunks)) 0 1 chunks in
  run (cleanup_chunks client chunks)
  = (match Py.join_items blank_line (map output_of results) with
     | inl e => inl e
     | inr final_content =>
         inr (final_content,
              sumZ (map estimated_of results),
              sumZ (map actual_of results))
     end,
     chunk_messages (Z.of_nat (List.length chunks)) 1 chunks).
Proof.
  cbn zeta. unfold run, cleanup_chunks. unfold bind at 1.
  rewrite process_chunks_run. cbv beta iota zeta.
  cbn [processed_chunks total_prompt_tokens total_actual_tokens totals_init
       app List.length].
  unfold bind, of_result, ret. rewrite !Z.add_0_l.
  destruct (Py.join_items _ _); reflexivity.
Qed.

(** Entry [j] of the results: chunk [j] with the outcome of request [k + j],
    whose message names it part [i + j]. *)
Lemma chunk_results_lookup n todo :
  forall k i (j : nat) chunk,
    todo !! j = Some chunk ->
    chunk_results client n k i todo !! j
    = Some (chunk,
            client (k + j)%nat (chunk_message chunk (i + Z.of_nat j) n)).
Proof.
  induction todo as [|c rest IH]; intros k i j chunk H; [done|].
  destruct j as [|j]; cbn in H |- *.
  - injection H as ->. now rewrite Nat.add_0_r, Z.add_0_r.
  - rewrite (IH _ _ _ _ H).
    replace (S k + j)%nat with (k + S j)%nat by lia.
    replace (i + 1 + Z.of_nat j) with (i + Z.of_nat (S j)) by lia.
    reflexivity.
Qed.

Lemma single_shot_run D prompt_tokens :
  run (single_shot client D prompt_tokens)
  = (inr match read_reply (client 0%nat (get_cleanup_prompt D)) with
         | inr (text, reported) => (text, prompt_tokens, reported)
         | inl e =>
             ("Error in tidy up: " +:+ e +:+ nl +:+ nl
              +:+ "Raw document content:" +:+ nl +:+ nl +:+ D, 0, 0)
         end,
     [get_cleanup_prompt D]).
Proof.
  unfold run, single_shot, try_except, bind, create, of_result, ret,
    read_usage, read_content, sized. cbn [List.length].
  destruct (client 0%nat (get_cleanup_prompt D)) as [e|[[text| |e] [| |u]]];
    reflexivity.
Qed.

Lemma text_tidy_up_small D :
  estimate_tokens_from_string (get_cleanup_prompt D) <= MAX_CHUNK_SIZE ->
  text_tidy_up client D
  = single_shot client D (estimate_tokens_from_string (get_cleanup_prompt D)).
Proof.
  intros H. unfold text_tidy_up.
  destruct (Z.leb_spec (estimate_tokens_from_string (get_cleanup_prompt D))
              MAX_CHUNK_SIZE); [reflexivity | lia].
Qed.

Lemma text_tidy_up_large D :
  MAX_CHUNK_SIZE < estimate_tokens_from_string (get_cleanup_prompt D) ->
  text_tidy_up client D = chunked client D.
Proof.
  intros H. unfold text_tidy_up.
  destruct (Z.leb_spec (estimate_tokens_from_string (get_cleanup_prompt D))
              MAX_CHUNK_SIZE); [lia | reflexivity].
Qed.

(** *** The two kinds of request differ *)

Lemma last_char_app s t c :
  last_char t = Some c -> last_char (s +:+ t) = Some c.
Proof.
  intros H. induction s as [|x s IH]; [assumption|].
  change (String x s +:+ t) with (String x (s +:+ t)).
  cbn [last_char]. destruct (s +:+ t) eqn:E; [|assumption].
  cbn in IH. discriminate.
Qed.

Lemma last_char_prompt D : last_char (get_cleanup_prompt D) = Some LF.
Proof. unfold get_cleanup_prompt. do 2 apply last_char_app. reflexivity. Qed.

Lemma last_char_chunk_message chunk i n :
  last_char (chunk_message chunk i n) = Some "."%char.
Proof.
  unfold chunk_message. do 6 apply last_char_app. reflexivity.
Qed.

Lemma chunk_messages_last n todo :
  forall i, Forall (fun m => last_char m = Some "."%char)
                   (chunk_messages n i todo).
Proof.
  induction todo as [|c rest IH]; intros i; cbn; constructor;
    [apply last_char_chunk_message | apply IH].
Qed.

Lemma requests_differ D D' :
  Outcomes.single_shot_requests D <> Outcomes.chunked_requests D'.
Proof.
  unfold single_shot_requests, chunked_requests. intros H.
  pose proof (chunk_messages_last
                (Z.of_nat (List.length (split_into_chunks D'))) 
                (split_into_chunks D') 1) as HF.
  rewrite <- H in HF. inversion HF as [|? ? Hlast _]; subst.
  rewrite last_char_prompt in Hlast. discriminate.
Qed.

End RequestFacts.

(** * The token estimator *)

Section EstimatorProperties.
Import Config TokenEstimator.

Lemma estimate_quarter s :
  Main.estimate_tokens_from_string s = Py.len s / 4.
Proof. reflexivity. Qed.

Lemma estimate_nonneg s : 0 <= Main.estimate_tokens_from_string s.
Proof.
  rewrite estimate_quarter. apply Z.div_pos; [apply len_nonneg | lia].
Qed.

Lemma estimate_mono s t :
  Py.len s <= Py.len t ->
  Main.estimate_tokens_from_string s <= Main.estimate_tokens_from_string t.
Proof. intros H. rewrite !estimate_quarter. apply Z.div_le_mono; lia. Qed.

Lemma estimate_repeat_char c n :
  Main.estimate_tokens_from_string (Py.repeat_char c n) = Z.of_N n / 4.
Proof. now rewrite estimate_quarter, len_repeat_char. Qed.

(** C6: for every string, the text estimate is the length divided by
    [CHARS_PER_TOKEN = 4], rounded down; it is never negative; the
    estimator of [token_estimator.py] and the one of [main.py] agree.  Both
    are functions defined on every string. *)
Theorem estimate_from_text_is_floor (s : string) :
  CHARS_PER_TOKEN = 4
  /\ estimate_from_string s = Z.of_nat (String.length s) / CHARS_PER_TOKEN
  /\ Main.estimate_tokens_from_string s = estimate_from_string s
  /\ 0 <= estimate_from_string s
  /\ 4 * estimate_from_string s <= Z.of_nat (String.length s)
     < 4 * estimate_from_string s + 4.
Proof.
  unfold estimate_from_string, Main.estimate_tokens_from_string,
    CHARS_PER_TOKEN, Py.len.
  repeat split; try reflexivity.
  - apply Z.div_pos; lia.
  - apply Z.mul_div_le. lia.
  - pose proof (Z.mul_succ_div_gt (Z.of_nat (String.length s)) 4). lia.
Qed.

Lemma image_base_lookup detail :
  IMAGE_TOKEN_BASE !! detail
  = if decide (detail = "high") then Some 525
    else if decide (detail = "standard") then Some 150
    else None.
Proof.
  unfold IMAGE_TOKEN_BASE. rewrite !lookup_insert, lookup_empty.
  repeat case_decide; congruence.
Qed.

(** C4, as stated, fails: for the detail ["high"] the code returns 918,
    and rounding [525 * 1.75 = 918.75] gives 919. *)
Lemma image_tokens_high_is_not_rounded :
  estimate_image_tokens "high" = Some 918
  /\ Stated.rounded_image_tokens "high" = 919
  /\ estimate_image_tokens "high"
     <> Some (Stated.rounded_image_tokens "high").
Proof.
  vm_compute. split; [reflexivity|]. split; [reflexivity|].
  intros H. discriminate H.
Qed.

(** C4, amended: for every detail the image estimate is
    [IMAGE_TOKEN_BASE[detail] * IMAGE_TOKEN_MULTIPLIER] truncated by [int],
    that is 918 for ["high"] and 262 for ["standard"]; any other detail
    gives what ["standard"] gives. *)
Theorem image_tokens_are_truncated (detail : string) :
  estimate_image_tokens detail
  = Some (Py.int_of (inject_Z (default 150%Z (IMAGE_TOKEN_BASE !! detail))
                     * IMAGE_TOKEN_MULTIPLIER)%Q)
  /\ estimate_image_tokens detail
     = Some (if decide (detail = "high") then 918 else 262)
  /\ estimate_image_tokens detail
     = (if decide (detail = "high") then estimate_image_tokens "high"
        else estimate_image_tokens "standard").
Proof.
  unfold estimate_image_tokens.
  rewrite (image_base_lookup "standard"), (image_base_lookup "high"),
    (image_base_lookup detail).
  repeat case_decide; try congruence; cbn; repeat split; reflexivity.
Qed.

(** C9: the token difference is defined for all arguments; for an estimate
    of 0 it is [(0.0, 0)], with no division; for a positive estimate it is
    [((actual - estimated) / estimated * 100, actual - estimated)]. *)
Theorem token_difference_guarded (estimated actual : Z) :
  is_Some (calculate_token_difference estimated actual)
  /\ (estimated = 0 ->
      calculate_token_difference estimated actual = Some (0%Q, 0))
  /\ (0 < estimated ->
      calculate_token_difference estimated actual
      = Some ((inject_Z (actual - estimated) / inject_Z estimated * 100)%Q,
              actual - estimated)).
Proof.
  unfold calculate_token_difference, Py.truediv.
  destruct (Z.leb_spec estimated 0) as [Hle|Hgt].
  - split; [eauto|]. split; [reflexivity | lia].
  - destruct (Z.eqb_spec estimated 0) as [->|Hne]; [lia|].
    split; [eauto|]. split; [lia | reflexivity].
Qed.

(** Scenario E, and an estimate of 100 against 150 actual tokens. *)
Lemma token_difference_guarded_witness :
  calculate_token_difference 0 50 = Some (0%Q, 0)
  /\ calculate_token_difference 100 150
     = Some ((inject_Z (150 - 100) / inject_Z 100 * 100)%Q, 150 - 100).
Proof.
  split.
  - apply (proj1 (proj2 (token_difference_guarded 0 50))). reflexivity.
  - apply (proj2 (proj2 (token_difference_guarded 100 150))). lia.
Defined.

End EstimatorProperties.

(** * The chunks of a document *)

Section ChunkProperties.
Import Py Prompts Main Grouping Outcomes.

Lemma prompt_len D : len (get_cleanup_prompt D) = 246 + len D.
Proof.
  unfold get_cleanup_prompt. rewrite !len_app.
  change (len cleanup_instructions) with 245. change (len nl) with 1. lia.
Qed.

Lemma first_paragraph_len D : len (first_paragraph D) <= len D.
Proof.
  unfold first_paragraph. pose proof (join_split D) as H.
  destruct (split_blank_line D) as [|p [|q ps]]; cbn [hd].
  - apply len_nonneg.
  - cbn in H. subst. lia.
  - rewrite join_cons in H by discriminate. rewrite <- H, !len_app.
    pose proof (len_nonneg blank_line).
    pose proof (len_nonneg (join blank_line (q :: ps))). lia.
Qed.

(** A document whose first paragraph is over the budget is chunked. *)
Lemma oversized_first_is_chunked D :
  MAX_CHUNK_SIZE < estimate_tokens_from_string (first_paragraph D) ->
  MAX_CHUNK_SIZE < estimate_tokens_from_string (get_cleanup_prompt D).
Proof.
  intros H. eapply Z.lt_le_trans; [exact H|]. apply estimate_mono.
  rewrite prompt_len. pose proof (first_paragraph_len D). lia.
Qed.

Lemma add_paragraph_overflow st p :
  MAX_CHUNK_SIZE < current_chunk_tokens st + estimate_tokens_from_string p ->
  add_paragraph st p
  = Chunker (chunks st ++ [join blank_line (current_chunk st)]) [p]
            (estimate_tokens_from_string p).
Proof.
  intros H. unfold add_paragraph.
  destruct (Z.ltb_spec MAX_CHUNK_SIZE
              (current_chunk_tokens st + estimate_tokens_from_string p));
    [reflexivity | lia].
Qed.

Lemma add_paragraph_fits st p :
  current_chunk_tokens st + estimate_tokens_from_string p <= MAX_CHUNK_SIZE ->
  add_paragraph st p
  = Chunker (chunks st) (current_chunk st ++ [p])
            (current_chunk_tokens st + estimate_tokens_from_string p).
Proof.
  intros H. unfold add_paragraph.
  destruct (Z.ltb_spec MAX_CHUNK_SIZE
              (current_chunk_tokens st + estimate_tokens_from_string p));
    [lia | reflexivity].
Qed.

Lemma chunks_of_oversized_paragraph P :
  split_blank_line P = [P] ->
  MAX_CHUNK_SIZE < estimate_tokens_from_string P ->
  split_into_chunks P = [""; P].
Proof.
  intros Hone Hbig. unfold split_into_chunks. rewrite Hone.
  unfold build_chunks. cbn [fold_left].
  rewrite add_paragraph_overflow by (cbn; lia). reflexivity.
Qed.

Lemma chunks_of_two_fitting p q :
  estimate_tokens_from_string p + estimate_tokens_from_string q
  <= MAX_CHUNK_SIZE ->
  build_chunks [p; q] = [p +:+ blank_line +:+ q].
Proof.
  intros Hfit. pose proof (estimate_nonneg q).
  unfold build_chunks. cbn [fold_left].
  rewrite (add_paragraph_fits chunker_init) by (cbn; lia).
  rewrite add_paragraph_fits by (cbn; lia). reflexivity.
Qed.

(** Scenario B: three paragraphs of 3000 tokens make two chunks, the first
    two paragraphs and the third. *)
Lemma chunks_of_three_halves p q r :
  estimate_tokens_from_string p = 3000 ->
  estimate_tokens_from_string q = 3000 ->
  estimate_tokens_from_string r = 3000 ->
  build_chunks [p; q; r] = [p +:+ blank_line +:+ q; r].
Proof.
  intros Hp Hq Hr. unfold build_chunks. cbn [fold_left].
  assert (Hmax : MAX_CHUNK_SIZE = 6000) by reflexivity.
  rewrite (add_paragraph_fits chunker_init) by (cbn; lia).
  rewrite (add_paragraph_fits _ q) by (cbn; lia).
  rewrite (add_paragraph_overflow _ r) by (cbn; lia).
  reflexivity.
Qed.

Lemma len_join_bound g :
  len (join blank_line g)
  <= 4 * sum_estimates g + uncounted (List.length g).
Proof.
  assert (Hp : forall p, len p <= 4 * estimate_tokens_from_string p + 3).
  { intros p. rewrite estimate_quarter.
    pose proof (Z.mul_succ_div_gt (len p) 4). lia. }
  induction g as [|p g IH]; [unfold uncounted, len; cbn; lia|].
  destruct g as [|q g].
  - specialize (Hp p). unfold uncounted, sum_estimates. cbn. lia.
  - rewrite join_cons by discriminate. rewrite !len_app.
    change (len blank_line) with 2.
    change (sum_estimates (p :: q :: g))
      with (estimate_tokens_from_string p + sum_estimates (q :: g)).
    specialize (Hp p). unfold uncounted in *.
    cbn [List.length] in *. lia.
Qed.

Lemma estimate_join_bound g :
  estimate_tokens_from_string (join blank_line g)
  <= sum_estimates g + uncounted (List.length g) / 4.
Proof.
  rewrite estimate_quarter.
  replace (sum_estimates g + uncounted (List.length g) / 4)
    with ((sum_estimates g * 4 + uncounted (List.length g)) / 4)
    by (rewrite Z.div_add_l; lia).
  apply Z.div_le_mono; [lia|]. pose proof (len_join_bound g). lia.
Qed.

Lemma requests_small client D :
  estimate_tokens_from_string (get_cleanup_prompt D) <= MAX_CHUNK_SIZE ->
  requests_of client D = single_shot_requests D.
Proof.
  intros H. unfold requests_of. rewrite text_tidy_up_small by assumption.
  now rewrite single_shot_run.
Qed.

Lemma requests_large client D :
  MAX_CHUNK_SIZE < estimate_tokens_from_string (get_cleanup_prompt D) ->
  requests_of client D = chunked_requests D.
Proof.
  intros H. unfold requests_of. rewrite text_tidy_up_large by assumption.
  unfold chunked. now rewrite cleanup_chunks_run.
Qed.

(** C1, where the code departs from it: when the first paragraph alone is
    estimated over the budget, the document is chunked and the join of its
    chunks is the document after a blank line, which is not the
    document. *)
Theorem roundtrip_broken_by_oversized_first_paragraph
    (client : Run.service) (D : string) :
  MAX_CHUNK_SIZE < estimate_tokens_from_string (first_paragraph D) ->
  text_tidy_up client D = chunked client D
  /\ join blank_line (split_into_chunks D) = blank_line +:+ D
  /\ join blank_line (split_into_chunks D) <> D.
Proof.
  intros Hbig.
  assert (Hjoin : join blank_line (split_into_chunks D) = blank_line +:+ D).
  { rewrite join_chunks.
    destruct (Z.ltb_spec MAX_CHUNK_SIZE
                (estimate_tokens_from_string (first_paragraph D)));
      [reflexivity | lia]. }
  split; [apply text_tidy_up_large, oversized_first_is_chunked, Hbig|].
  split; [exact Hjoin|].
  rewrite Hjoin. intros Heq. apply (f_equal len) in Heq.
  rewrite len_app in Heq. change (len blank_line) with 2 in Heq. lia.
Qed.

(** One paragraph of 24004 characters: 6001 tokens. *)
Lemma roundtrip_broken_witness :
  MAX_CHUNK_SIZE
  < estimate_tokens_from_string (first_paragraph Inputs.just_over_budget)
  /\ join blank_line (split_into_chunks Inputs.just_over_budget)
     = blank_line +:+ Inputs.just_over_budget
  /\ join blank_line (split_into_chunks Inputs.just_over_budget)
     <> Inputs.just_over_budget.
Proof.
  assert (H : MAX_CHUNK_SIZE
              < estimate_tokens_from_string
                  (first_paragraph Inputs.just_over_budget)).
  { unfold first_paragraph, Inputs.just_over_budget.
    rewrite split_repeat_char by reflexivity. cbn [hd].
    rewrite estimate_repeat_char. reflexivity. }
  split; [exact H|].
  exact (proj2 (roundtrip_broken_by_oversized_first_paragraph
                  Inputs.failing_client Inputs.just_over_budget H)).
Defined.

(** C2, where the code departs from it: a document that is one paragraph
    estimated over the budget gives two chunks, the empty one and the
    paragraph, and both are sent for cleanup, as parts 1 and 2 of 2. *)
Theorem oversized_paragraph_follows_empty_chunk
    (client : Run.service) (P : string) :
  Stated.single_paragraph P ->
  MAX_CHUNK_SIZE < estimate_tokens_from_string P ->
  split_into_chunks P = [""; P]
  /\ requests_of client P = [chunk_message "" 1 2; chunk_message P 2 2].
Proof.
  intros Hone Hbig.
  pose proof (chunks_of_oversized_paragraph P Hone Hbig) as Hchunks.
  split; [exact Hchunks|].
  rewrite requests_large.
  - unfold chunked_requests. rewrite Hchunks. reflexivity.
  - apply oversized_first_is_chunked. unfold first_paragraph.
    rewrite Hone. exact Hbig.
Qed.

(** Scenario C: one paragraph of 8000 tokens. *)
Lemma oversized_paragraph_witness :
  Stated.single_paragraph Inputs.oversized_paragraph
  /\ estimate_tokens_from_string Inputs.oversized_paragraph = 8000
  /\ split_into_chunks Inputs.oversized_paragraph
     = [""; Inputs.oversized_paragraph]
  /\ requests_of Inputs.failing_client Inputs.oversized_paragraph
     = [chunk_message "" 1 2; chunk_message Inputs.oversized_paragraph 2 2].
Proof.
  assert (H1 : Stated.single_paragraph Inputs.oversized_paragraph).
  { apply split_repeat_char. reflexivity. }
  assert (H2 : estimate_tokens_from_string Inputs.oversized_paragraph = 8000).
  { unfold Inputs.oversized_paragraph. rewrite estimate_repeat_char.
    reflexivity. }
  split; [exact H1|]. split; [exact H2|].
  apply (oversized_paragraph_follows_empty_chunk
           Inputs.failing_client Inputs.oversized_paragraph H1).
  rewrite H2. reflexivity.
Defined.

Lemma two_paragraphs_split :
  split_blank_line Inputs.two_paragraphs
  = [repeat_char "a" 12003; repeat_char "a" 12003].
Proof.
  unfold Inputs.two_paragraphs.
  rewrite split_repeat_char_app by reflexivity.
  now rewrite split_repeat_char by reflexivity.
Qed.

Lemma two_paragraphs_len : len Inputs.two_paragraphs = 24008.
Proof.
  unfold Inputs.two_paragraphs. rewrite !len_app, !len_repeat_char.
  reflexivity.
Qed.

(** C3, as stated, fails: the two paragraphs of this document are
    estimated at 3000 tokens each, so they make one chunk; with the blank
    line between them the chunk is estimated at 6002 tokens, and it is not
    a single paragraph. *)
Lemma chunk_size_bound_fails_on_two_paragraphs :
  MAX_CHUNK_SIZE
  < estimate_tokens_from_string (get_cleanup_prompt Inputs.two_paragraphs)
  /\ split_into_chunks Inputs.two_paragraphs = [Inputs.two_paragraphs]
  /\ estimate_tokens_from_string Inputs.two_paragraphs = 6002
  /\ ~ Stated.chunk_size_bound Inputs.two_paragraphs.
Proof.
  assert (Hest : estimate_tokens_from_string Inputs.two_paragraphs = 6002).
  { rewrite estimate_quarter, two_paragraphs_len. reflexivity. }
  assert (Hchunks :
            split_into_chunks Inputs.two_paragraphs = [Inputs.two_paragraphs]).
  { unfold split_into_chunks. rewrite two_paragraphs_split.
    apply chunks_of_two_fitting. rewrite estimate_repeat_char.
    unfold MAX_CHUNK_SIZE. change (Z.of_N 12003 / 4) with 3000. lia. }
  split.
  { rewrite estimate_quarter, prompt_len, two_paragraphs_len. reflexivity. }
  split; [exact Hchunks|]. split; [exact Hest|].
  intros [exempt Hbound].
  destruct (Hbound 0%nat Inputs.two_paragraphs) as [Hle | [_ Hone]].
  - now rewrite Hchunks.
  - rewrite Hest in Hle. unfold MAX_CHUNK_SIZE in Hle. lia.
  - unfold Stated.single_paragraph in Hone.
    rewrite two_paragraphs_split in Hone. discriminate Hone.
Qed.

(** C3, amended: the chunks of a document are the joins of groups of
    consecutive paragraphs; in every group the estimates of the paragraphs
    add up to at most [MAX_CHUNK_SIZE], unless the group is one paragraph;
    and the estimate of a chunk of [k] paragraphs exceeds that sum by at
    most [(5 * k - 2) / 4] tokens, for the separators and the remainders
    that the sum leaves out. *)
Theorem chunks_within_budget_by_paragraph_sums (D : string) :
  let groups := group_paragraphs (split_blank_line D) in
  split_into_chunks D = map (join blank_line) groups
  /\ concat groups = split_blank_line D
  /\ Forall (fun g => sum_estimates g <= MAX_CHUNK_SIZE
                      \/ List.length g = 1%nat) groups
  /\ Forall (fun g => estimate_tokens_from_string (join blank_line g)
                      <= sum_estimates g + uncounted (List.length g) / 4)
            groups.
Proof.
  cbn zeta. split; [apply build_chunks_groups|].
  split; [apply concat_group_paragraphs|].
  split; [apply within_budget_groups|].
  apply Forall_forall. intros g _. apply estimate_join_bound.
Qed.

End ChunkProperties.

(** * The cleanup pipeline *)

Section PipelineProperties.
Import Py Run Prompts Main Outcomes.

Lemma chunk_results_length client n todo :
  forall k i,
    List.length (chunk_results client n k i todo) = List.length todo.
Proof.
  induction todo as [|c rest IH]; intros k i; cbn; [reflexivity|].
  now rewrite IH.
Qed.

Lemma at_budget_estimate :
  estimate_tokens_from_string (get_cleanup_prompt Inputs.at_budget) = 6000.
Proof.
  rewrite estimate_quarter, prompt_len. unfold Inputs.at_budget.
  rewrite len_repeat_char. reflexivity.
Qed.

(** C5: the run sends the single request of the single-shot path exactly
    when the estimate of the cleanup prompt is at most [MAX_CHUNK_SIZE =
    6000], and the numbered requests of the chunked path exactly when it is
    above; a document whose prompt is estimated at 6000 exactly goes the
    single-shot way. *)
Theorem path_decision_is_inclusive (client : service) (D : string) :
  MAX_CHUNK_SIZE = 6000
  /\ (requests_of client D = single_shot_requests D
      <-> estimate_tokens_from_string (get_cleanup_prompt D)
          <= MAX_CHUNK_SIZE)
  /\ (requests_of client D = chunked_requests D
      <-> MAX_CHUNK_SIZE
          < estimate_tokens_from_string (get_cleanup_prompt D))
  /\ (estimate_tokens_from_string (get_cleanup_prompt Inputs.at_budget)
      = MAX_CHUNK_SIZE
      /\ requests_of client Inputs.at_budget
         = single_shot_requests Inputs.at_budget).
Proof.
  split; [reflexivity|].
  destruct (Z.le_gt_cases
              (estimate_tokens_from_string (get_cleanup_prompt D))
              MAX_CHUNK_SIZE) as [Hle|Hgt].
  - pose proof (requests_small client D Hle) as Hreq.
    split; [tauto|]. split.
    + split; [|lia]. intros Heq. rewrite Hreq in Heq.
      now apply requests_differ in Heq.
    + split; [apply at_budget_estimate|].
      apply requests_small. rewrite at_budget_estimate.
      unfold MAX_CHUNK_SIZE. lia.
  - pose proof (requests_large client D Hgt) as Hreq.
    split.
    + split; [|lia]. intros Heq. rewrite Hreq in Heq.
      symmetry in Heq. now apply requests_differ in Heq.
    + split; [tauto|]. split; [apply at_budget_estimate|].
      apply requests_small. rewrite at_budget_estimate.
      unfold MAX_CHUNK_SIZE. lia.
Qed.

Lemma two_paragraphs_chunks :
  split_into_chunks Inputs.two_paragraphs = [Inputs.two_paragraphs].
Proof.
  unfold split_into_chunks. rewrite two_paragraphs_split.
  apply chunks_of_two_fitting. rewrite estimate_repeat_char.
  unfold MAX_CHUNK_SIZE. change (Z.of_N 12003 / 4) with 3000. lia.
Qed.

Lemma two_paragraphs_is_chunked :
  MAX_CHUNK_SIZE
  < estimate_tokens_from_string (get_cleanup_prompt Inputs.two_paragraphs).
Proof.
  rewrite estimate_quarter, prompt_len, two_paragraphs_len. reflexivity.
Qed.

Lemma three_paragraphs_chunks :
  split_into_chunks MoreInputs.three_paragraphs
  = [repeat_char "a" 12000 +:+ blank_line +:+ repeat_char "a" 12000;
     repeat_char "a" 12000].
Proof.
  unfold split_into_chunks, MoreInputs.three_paragraphs.
  rewrite !split_repeat_char_app by reflexivity.
  rewrite split_repeat_char by reflexivity.
  apply chunks_of_three_halves; rewrite estimate_repeat_char; reflexivity.
Qed.

Lemma three_paragraphs_is_chunked :
  MAX_CHUNK_SIZE
  < estimate_tokens_from_string
      (get_cleanup_prompt MoreInputs.three_paragraphs).
Proof.
  rewrite estimate_quarter, prompt_len. unfold MoreInputs.three_paragraphs.
  rewrite !len_app, !len_repeat_char. reflexivity.
Qed.

Lemma join_items_all_text items :
  first_none 0 items = None ->
  join_items blank_line items = inr (join blank_line (omap id items)).
Proof. intros H. unfold join_items. now rewrite H. Qed.

Lemma text_tidy_up_chunked_run client D :
  MAX_CHUNK_SIZE < estimate_tokens_from_string (get_cleanup_prompt D) ->
  let chunks := split_into_chunks D in
  let results :=
    chunk_results client (Z.of_nat (List.length chunks)) 0 1 chunks in
  fst (run (text_tidy_up client D))
  = match first_none 0 (map output_of results) with
    | Some i => inl (join_none_error i)
    | None =>
        inr (join blank_line (omap id (map output_of results)),
             sumZ (map estimated_of results),
             sumZ (map actual_of results))
    end.
Proof.
  intros Hgt. cbn zeta. rewrite text_tidy_up_large by assumption.
  unfold chunked. rewrite cleanup_chunks_run. cbn [fst].
  unfold join_items. destruct (first_none 0 _); reflexivity.
Qed.

(** C7, and where the code departs from it.  For every list of chunks and
    every service, all the chunks are requested in order.  In the output a
    chunk stands as the text of its reply, or as it was when its request
    raises or its reply cannot be read; the actual total is the sum of the
    usages that the replies report.  With two chunks of which the second
    request raises, the output is the cleaned first chunk, a blank line
    and the second chunk as it was, and the actual tokens are those of the
    first reply.  But a second reply that reports its usage and whose
    content cannot be read is counted, in both totals, although the chunk
    is kept as it was; and a reply whose content is [None] makes the final
    join raise. *)
Theorem chunk_outcomes_and_totals
    (client : service) (chunks : list string) :
  let n := Z.of_nat (List.length chunks) in
  let results := chunk_results client n 0 1 chunks in
  List.length results = List.length chunks
  /\ (forall (j : nat) chunk,
        chunks !! j = Some chunk ->
        results !! j
        = Some (chunk, client j (chunk_message chunk (1 + Z.of_nat j) n)))
  /\ run (cleanup_chunks client chunks)
     = (match first_none 0 (map output_of results) with
        | Some i => inl (join_none_error i)
        | None =>
            inr (join blank_line (omap id (map output_of results)),
                 sumZ (map estimated_of results),
                 sumZ (map actual_of results))
        end,
        chunk_messages n 1 chunks)
  /\ (forall c1 c2 text u e,
        fst (run (cleanup_chunks (Inputs.first_only (reply text u) e)
                    [c1; c2]))
        = inr (text +:+ blank_line +:+ c2,
               estimate_tokens_from_string c1,
               default 0 u))
  /\ (forall c1 c2 text u e reported_2,
        fst (run (cleanup_chunks
                    (MoreInputs.first_then
                       (reply text u)
                       (Response (ContentUnreadable e) (Usage reported_2)))
                    [c1; c2]))
        = inr (text +:+ blank_line +:+ c2,
               estimate_tokens_from_string c1
               + estimate_tokens_from_string c2,
               default 0 u + reported_2))
  /\ (forall c1 c2 text u reported_2,
        fst (run (cleanup_chunks
                    (MoreInputs.first_then
                       (reply text u)
                       (Response ContentNone (Usage reported_2)))
                    [c1; c2]))
        = inl (join_none_error 1)).
Proof.
  cbn zeta. split; [apply chunk_results_length|].
  split; [intros j chunk H;
          now apply (chunk_results_lookup client) with (k := 0%nat)|].
  split.
  { rewrite cleanup_chunks_run. unfold join_items.
    destruct (first_none 0 _); reflexivity. }
  split; [|split].
  - intros c1 c2 text u e. rewrite cleanup_chunks_run.
    destruct u; cbn; now rewrite ?Z.add_0_r.
  - intros c1 c2 text u e reported_2. rewrite cleanup_chunks_run.
    destruct u; cbn; rewrite ?Z.add_0_r; reflexivity.
  - intros c1 c2 text u reported_2. rewrite cleanup_chunks_run.
    destruct u; reflexivity.
Qed.

(** C8, and where the code departs from it.  On the single-shot path the
    run always returns: the text of the reply with the prompt estimate and
    the usage, or, when the request raises or the reply cannot be read (a
    content that is [None] included), the error banner with the message of
    the exception followed by the raw document as it was, and 0 for both
    counters.  On the chunked path the run raises a [TypeError] when the
    content of the reply for a chunk is [None] and its usage can be read:
    the content is appended unchecked and joined outside every [try]. *)
Theorem cleanup_raises_on_none_content
    (client : service) (D : string) (e : exn) :
  (estimate_tokens_from_string (get_cleanup_prompt D) <= MAX_CHUNK_SIZE ->
   run (text_tidy_up client D)
   = (inr match read_reply (client 0%nat (get_cleanup_prompt D)) with
          | inr (text, reported) =>
              (text, estimate_tokens_from_string (get_cleanup_prompt D),
               reported)
          | inl e' =>
              ("Error in tidy up: " +:+ e' +:+ nl +:+ nl
               +:+ "Raw document content:" +:+ nl +:+ nl +:+ D, 0, 0)
          end,
      [get_cleanup_prompt D]))
  /\ (estimate_tokens_from_string (get_cleanup_prompt D) <= MAX_CHUNK_SIZE ->
      client 0%nat (get_cleanup_prompt D) = inl e ->
      run (text_tidy_up client D)
      = (inr ("Error in tidy up: " +:+ e +:+ nl +:+ nl
              +:+ "Raw document content:" +:+ nl +:+ nl +:+ D, 0, 0),
         [get_cleanup_prompt D]))
  /\ (MAX_CHUNK_SIZE < estimate_tokens_from_string (get_cleanup_prompt D) ->
      let chunks := split_into_chunks D in
      let results :=
        chunk_results client (Z.of_nat (List.length chunks)) 0 1 chunks in
      fst (run (text_tidy_up client D))
      = match first_none 0 (map output_of results) with
        | Some i => inl (join_none_error i)
        | None =>
            inr (join blank_line (omap id (map output_of results)),
                 sumZ (map estimated_of results),
                 sumZ (map actual_of results))
        end).
Proof.
  split; [|split].
  - intros Hle. now rewrite text_tidy_up_small, single_shot_run by assumption.
  - intros Hle Hfail.
    rewrite text_tidy_up_small, single_shot_run by assumption.
    now rewrite Hfail.
  - apply text_tidy_up_chunked_run.
Qed.

(** A short document with a service that is down: the banner.  A chunked
    document with replies whose content is [None]: the run raises. *)
Lemma cleanup_raises_witness :
  run (text_tidy_up Inputs.failing_client Inputs.short_document)
  = (inr ("Error in tidy up: " +:+ "timeout" +:+ nl +:+ nl
          +:+ "Raw document content:" +:+ nl +:+ nl
          +:+ Inputs.short_document, 0, 0),
     [get_cleanup_prompt Inputs.short_document])
  /\ fst (run (text_tidy_up (MoreInputs.always MoreInputs.none_content)
                 Inputs.two_paragraphs))
     = inl "sequence item 0: expected str instance, NoneType found".
Proof.
  split.
  - apply (proj1 (proj2 (cleanup_raises_on_none_content
                           Inputs.failing_client Inputs.short_document
                           "timeout"))).
    + vm_compute. discriminate.
    + reflexivity.
  - pose proof (proj2 (proj2 (cleanup_raises_on_none_content
                                (MoreInputs.always MoreInputs.none_content)
                                Inputs.two_paragraphs ""))
                  two_paragraphs_is_chunked) as E.
    cbn zeta in E. rewrite two_paragraphs_chunks in E. exact E.
Defined.

(** C10, and where the code departs from it.  On the single-shot path a
    request that raises gives an estimated total of 0.  On the chunked
    path, when the run returns, the estimated total is the sum of the
    estimates of the chunk texts, without the prompt around them, over the
    chunks whose request returned a reply with a usage that can be read:
    a chunk that is kept as it was because the content of its reply cannot
    be read is counted all the same. *)
Theorem estimated_total_counts_unread_reply
    (client : service) (D : string) :
  (estimate_tokens_from_string (get_cleanup_prompt D) <= MAX_CHUNK_SIZE ->
   forall e, client 0%nat (get_cleanup_prompt D) = inl e ->
   exists text actual,
     fst (run (text_tidy_up client D)) = inr (text, 0, actual))
  /\ (MAX_CHUNK_SIZE < estimate_tokens_from_string (get_cleanup_prompt D) ->
      let chunks := split_into_chunks D in
      let results :=
        chunk_results client (Z.of_nat (List.length chunks)) 0 1 chunks in
      first_none 0 (map output_of results) = None ->
      fst (run (text_tidy_up client D))
      = inr (join blank_line (omap id (map output_of results)),
             sumZ (map estimated_of results),
             sumZ (map actual_of results))).
Proof.
  split.
  - intros Hle e Hfail.
    rewrite text_tidy_up_small, single_shot_run, Hfail by assumption.
    cbn. eauto.
  - intros Hgt. cbn zeta. intros Hnone.
    rewrite text_tidy_up_chunked_run by assumption. cbn zeta.
    now rewrite Hnone.
Qed.

(** With a service that is down the estimated total of a short document
    is 0.  Scenario B with a second reply that reports 50 tokens and has no
    choice to read: the third paragraph is kept as it was and the
    estimated total is 9000, the 6000 of the first chunk and the 3000 of
    the second. *)
Lemma estimated_total_witness :
  (exists text actual,
     fst (run (text_tidy_up Inputs.failing_client Inputs.short_document))
     = inr (text, 0, actual))
  /\ fst (run (text_tidy_up
                 (MoreInputs.first_then MoreInputs.cleaned MoreInputs.no_choice)
                 MoreInputs.three_paragraphs))
     = inr ("# Title" +:+ blank_line +:+ repeat_char "a" 12000, 9000, 120).
Proof.
  split.
  - apply (proj1 (estimated_total_counts_unread_reply
                    Inputs.failing_client Inputs.short_document))
      with (e := "timeout").
    + vm_compute. discriminate.
    + reflexivity.
  - pose proof (proj2 (estimated_total_counts_unread_reply
                         (MoreInputs.first_then
                            MoreInputs.cleaned MoreInputs.no_choice)
                         MoreInputs.three_paragraphs)
                  three_paragraphs_is_chunked) as E.
    cbn zeta in E. rewrite three_paragraphs_chunks in E.
    rewrite (E eq_refl).
    unfold sumZ. cbn [map chunk_results omap estimated_of actual_of counted
                      reported output_of MoreInputs.first_then
                      MoreInputs.cleaned MoreInputs.no_choice reply
                      fst snd foldr List.length].
    rewrite !estimate_quarter, !len_app, !len_repeat_char.
    reflexivity.
Defined.

End PipelineProperties.

(** * Further properties of the estimator *)

Section EstimatorExtras.
Import Py Main TokenEstimator.

(** X1: the estimate of a concatenation is the sum of the two estimates or
    one more: the remainders of the two lengths can add up to a token. *)
Theorem estimate_of_concatenation (s t : string) :
  estimate_tokens_from_string s + estimate_tokens_from_string t
  <= estimate_tokens_from_string (s +:+ t)
  <= estimate_tokens_from_string s + estimate_tokens_from_string t + 1.
Proof.
  rewrite !estimate_quarter, len_app.
  pose proof (len_nonneg s). pose proof (len_nonneg t).
  Z.div_mod_to_equations. lia.
Qed.

Lemma token_difference_positive (estimated actual : Z) :
  0 < estimated ->
  calculate_token_difference estimated actual
  = Some ((inject_Z (actual - estimated) / inject_Z estimated * 100)%Q,
          actual - estimated).
Proof.
  intros Hpos. unfold calculate_token_difference, Py.truediv.
  destruct (Z.leb_spec estimated 0); [lia|].
  destruct (Z.eqb_spec estimated 0); [lia | reflexivity].
Qed.

(** X2: for a positive estimate the percentage has the sign of the
    absolute difference, it is 0 exactly when actual and estimate agree,
    and it is at least -100 exactly when the actual count is not
    negative. *)
Theorem token_difference_sign (estimated actual : Z) :
  0 < estimated ->
  exists pct : Q,
    calculate_token_difference estimated actual
    = Some (pct, actual - estimated)
    /\ ((0 < pct)%Q <-> estimated < actual)
    /\ ((pct == 0)%Q <-> actual = estimated)
    /\ ((pct < 0)%Q <-> actual < estimated)
    /\ ((- (100) <= pct)%Q <-> 0 <= actual).
Proof.
  intros Hpos. eexists. split; [now apply token_difference_positive|].
  destruct estimated as [|p|p]; try lia.
  unfold Qlt, Qle, Qeq, Qdiv, Qmult, Qinv, inject_Z. cbn.
  repeat split; intros; nia.
Qed.

Lemma token_difference_sign_witness :
  exists pct : Q,
    calculate_token_difference 100 150 = Some (pct, 150 - 100)
    /\ ((0 < pct)%Q <-> 100 < 150)
    /\ ((pct == 0)%Q <-> 150 = 100)
    /\ ((pct < 0)%Q <-> 150 < 100)
    /\ ((- (100) <= pct)%Q <-> 0 <= 150).
Proof. apply (token_difference_sign 100 150). lia. Defined.

End EstimatorExtras.

(** * Further properties of the chunks *)

Section ChunkExtras.
Import Py Prompts Main Grouping Greedy Outcomes.

(** X3: joining the chunks with the blank line gives the document back
    exactly when the first paragraph is estimated within the budget. *)
Theorem roundtrip_iff_first_paragraph_fits (D : string) :
  join blank_line (split_into_chunks D) = D
  <-> estimate_tokens_from_string (first_paragraph D) <= MAX_CHUNK_SIZE.
Proof.
  rewrite join_chunks.
  destruct (Z.ltb_spec MAX_CHUNK_SIZE
              (estimate_tokens_from_string (first_paragraph D))) as [Hlt|Hle].
  - split; [|lia]. intros Heq. apply (f_equal len) in Heq.
    rewrite len_app in Heq. change (len blank_line) with 2 in Heq. lia.
  - tauto.
Qed.

(** X4: the chunks are the joins of groups of paragraphs, of which there
    is at least one; a group of no paragraph, whose chunk is empty, is
    produced exactly when the first paragraph alone is over the budget; it
    is then the first group, and every other group holds at least one
    paragraph. *)
Theorem empty_group_only_in_front (D : string) :
  let groups := group_paragraphs (split_blank_line D) in
  split_into_chunks D = map (join blank_line) groups
  /\ groups <> []
  /\ (In [] groups
      <-> MAX_CHUNK_SIZE < estimate_tokens_from_string (first_paragraph D))
  /\ Forall (fun g => g <> []) (tl groups).
Proof.
  cbn zeta. split; [apply build_chunks_groups|]. unfold first_paragraph.
  destruct (split_blank_line D) as [|p ps] eqn:E;
    [now apply split_nonempty in E|].
  destruct (group_paragraphs_cons p ps) as (G & HG & Hne & Heq).
  rewrite Heq. cbn [hd].
  assert (Hnot : ~ In [] G).
  { intros Hin. rewrite Forall_forall in HG.
    apply list_elem_of_In in Hin. now apply HG in Hin. }
  destruct (Z.ltb_spec MAX_CHUNK_SIZE (estimate_tokens_from_string p))
    as [Hlt|Hle].
  - split; [discriminate|]. split; [|exact HG].
    split; [intros _; exact Hlt | intros _; now left].
  - split; [exact Hne|]. split.
    + split; [intros Hin; now apply Hnot in Hin | lia].
    + destruct G as [|g G]; [constructor|]. now inversion HG.
Qed.

Lemma sum_estimates_cons p g :
  sum_estimates (p :: g) = estimate_tokens_from_string p + sum_estimates g.
Proof. reflexivity. Qed.

Lemma sum_estimates_nonneg g : 0 <= sum_estimates g.
Proof.
  induction g as [|p g IH]; [reflexivity|].
  rewrite sum_estimates_cons. pose proof (estimate_nonneg p). lia.
Qed.

(** While the budget is not reached the loop only extends the current
    chunk. *)
Lemma fold_all_fit ps :
  forall st,
    current_chunk_tokens st + sum_estimates ps <= MAX_CHUNK_SIZE ->
    fold_left add_paragraph ps st
    = Chunker (chunks st) (current_chunk st ++ ps)
              (current_chunk_tokens st + sum_estimates ps).
Proof.
  induction ps as [|p ps IH]; intros st Hfit.
  - cbn. rewrite app_nil_r, Z.add_0_r. now destruct st.
  - rewrite sum_estimates_cons in Hfit.
    pose proof (sum_estimates_nonneg ps). pose proof (estimate_nonneg p).
    cbn [fold_left]. rewrite add_paragraph_fits by lia.
    rewrite IH by (cbn; lia). cbn [chunks current_chunk current_chunk_tokens].
    rewrite sum_estimates_cons, <- app_assoc. f_equal. lia.
Qed.

Lemma one_chunk_when_sum_fits D :
  sum_estimates (split_blank_line D) <= MAX_CHUNK_SIZE ->
  split_into_chunks D = [D].
Proof.
  intros Hfit. unfold split_into_chunks, build_chunks.
  rewrite fold_all_fit by (cbn; lia).
  cbn [chunks current_chunk chunker_init app].
  pose proof (join_split D) as Hjoin.
  destruct (split_blank_line D) as [|p ps] eqn:E;
    [now apply split_nonempty in E|].
  now rewrite Hjoin.
Qed.

(** X5: when the estimates of all the paragraphs add up to at most
    [MAX_CHUNK_SIZE], the only chunk is the document itself. *)
Theorem whole_document_is_one_chunk (D : string) :
  sum_estimates (split_blank_line D) <= MAX_CHUNK_SIZE ->
  split_into_chunks D = [D].
Proof. apply one_chunk_when_sum_fits. Qed.

Lemma fits_without_prompt_sum :
  sum_estimates (split_blank_line MoreInputs.fits_without_prompt)
  <= MAX_CHUNK_SIZE.
Proof.
  unfold MoreInputs.fits_without_prompt.
  rewrite split_repeat_char by reflexivity.
  rewrite sum_estimates_cons, estimate_repeat_char.
  change (Z.of_N 23760 / 4) with 5940. unfold MAX_CHUNK_SIZE. cbn. lia.
Qed.

Lemma fits_without_prompt_is_chunked :
  MAX_CHUNK_SIZE
  < estimate_tokens_from_string
      (get_cleanup_prompt MoreInputs.fits_without_prompt).
Proof.
  rewrite estimate_quarter, prompt_len. unfold MoreInputs.fits_without_prompt.
  rewrite len_repeat_char. reflexivity.
Qed.

Lemma whole_document_is_one_chunk_witness :
  split_into_chunks MoreInputs.fits_without_prompt
  = [MoreInputs.fits_without_prompt].
Proof.
  apply whole_document_is_one_chunk. exact fits_without_prompt_sum.
Defined.

(** X6: a document that is chunked because of the prompt around it, while
    its paragraphs fit the budget, is sent whole in one request: the
    single-shot request with the line "This is part 1 of 1." added. *)
Theorem chunked_document_sent_whole (client : Run.service) (D : string) :
  MAX_CHUNK_SIZE < estimate_tokens_from_string (get_cleanup_prompt D) ->
  sum_estimates (split_blank_line D) <= MAX_CHUNK_SIZE ->
  requests_of client D
  = [get_cleanup_prompt D +:+ nl +:+ "This is part 1 of 1."].
Proof.
  intros Hbig Hfit. rewrite requests_large by assumption.
  unfold chunked_requests. rewrite one_chunk_when_sum_fits by assumption.
  reflexivity.
Qed.

Lemma chunked_document_sent_whole_witness :
  requests_of Inputs.failing_client MoreInputs.fits_without_prompt
  = [get_cleanup_prompt MoreInputs.fits_without_prompt
     +:+ nl +:+ "This is part 1 of 1."].
Proof.
  apply chunked_document_sent_whole.
  - exact fits_without_prompt_is_chunked.
  - exact fits_without_prompt_sum.
Defined.

(** *** The packing is greedy *)

Lemma greedy_snoc l g g' :
  greedy (l ++ [g]) -> cannot_take g g' -> greedy (l ++ [g; g']).
Proof.
  induction l as [|x l IH]; intros Hg Hct.
  - cbn. tauto.
  - cbn [app greedy] in Hg |- *. destruct Hg as [Hx Hrest].
    split; [|now apply IH]. now destruct l.
Qed.

Lemma greedy_extend_last l g p :
  greedy (l ++ [g]) -> g <> [] -> greedy (l ++ [g ++ [p]]).
Proof.
  induction l as [|x l IH]; intros Hg Hne.
  - cbn. tauto.
  - cbn [app greedy] in Hg |- *. destruct Hg as [Hx Hrest].
    split; [|now apply IH]. destruct l; [|assumption].
    cbn [app] in Hx |- *. destruct g; [congruence | assumption].
Qed.

Lemma greedy_ok_init : greedy_ok grouper_init.
Proof. repeat split; cbn; tauto. Qed.

Lemma greedy_ok_add st p : greedy_ok st -> greedy_ok (add_to_group st p).
Proof.
  intros (Hg & Htok & Hempty). unfold add_to_group.
  destruct (Z.ltb_spec MAX_CHUNK_SIZE
              (open_tokens st + estimate_tokens_from_string p)) as [Hlt|Hge];
    unfold greedy_ok; cbn [closed open_group open_tokens]; repeat split.
  - rewrite <- app_assoc. apply greedy_snoc; [assumption|].
    cbn. rewrite <- Htok. exact Hlt.
  - rewrite sum_estimates_cons. cbn. lia.
  - discriminate.
  - destruct (open_group st) as [|q g] eqn:E.
    + rewrite Hempty by reflexivity. cbn. tauto.
    + apply greedy_extend_last; [assumption | discriminate].
  - rewrite sum_estimates_app. lia.
  - intros H. destruct (open_group st); discriminate.
Qed.

Lemma greedy_ok_fold ps st :
  greedy_ok st -> greedy_ok (fold_left add_to_group ps st).
Proof.
  revert st. induction ps as [|p ps IH]; intros st H; [assumption|].
  cbn [fold_left]. now apply IH, greedy_ok_add.
Qed.

(** X7: the packing is greedy: a chunk is closed only when the next
    paragraph would bring the sum of the estimates of its paragraphs over
    [MAX_CHUNK_SIZE]. *)
Theorem chunks_are_packed_greedily (D : string) :
  greedy (group_paragraphs (split_blank_line D))
  /\ split_into_chunks D
     = map (join blank_line) (group_paragraphs (split_blank_line D)).
Proof.
  split; [|apply build_chunks_groups].
  unfold group_paragraphs, finish.
  destruct (greedy_ok_fold (split_blank_line D) _ greedy_ok_init)
    as (Hg & _ & Hempty).
  destruct (open_group _) eqn:E; [|assumption].
  rewrite Hempty by reflexivity. exact I.
Qed.

(** *** How many chunks *)

Lemma length_nonempty_groups (groups : list (list string)) :
  Forall (fun g => g <> []) groups ->
  (List.length groups <= List.length (concat groups))%nat.
Proof.
  induction 1 as [|g groups Hg _ IH]; [reflexivity|].
  cbn [concat]. rewrite length_app. cbn [List.length].
  destruct g; [congruence|]. cbn [List.length]. lia.
Qed.

(** X8: there is at least one chunk, and no more chunks than paragraphs,
    but for the empty chunk in front of a first paragraph that is over the
    budget. *)
Theorem chunk_count_bounds (D : string) :
  (1 <= List.length (split_into_chunks D))%nat
  /\ (List.length (split_into_chunks D)
      <= List.length (split_blank_line D)
         + (if (MAX_CHUNK_SIZE
                <? estimate_tokens_from_string (first_paragraph D))%Z
            then 1 else 0))%nat.
Proof.
  unfold split_into_chunks, first_paragraph.
  rewrite build_chunks_groups, length_map.
  pose proof (concat_group_paragraphs (split_blank_line D)) as Hcat.
  destruct (split_blank_line D) as [|p ps] eqn:E;
    [now apply split_nonempty in E|].
  destruct (group_paragraphs_cons p ps) as (G & HG & Hne & Heq).
  rewrite Heq in Hcat |- *. cbn [hd].
  pose proof (length_nonempty_groups G HG) as Hlen.
  destruct (MAX_CHUNK_SIZE <? estimate_tokens_from_string p);
    cbn [concat app] in Hcat; rewrite Hcat in Hlen;
    cbn [List.length] in *; split; try lia.
  destruct G; [congruence | cbn; lia].
Qed.

End ChunkExtras.

(** * Further properties of the cleanup pipeline *)

Section PipelineExtras.
Import Py Run Prompts Main Grouping Outcomes.

Lemma chunk_messages_length n todo :
  forall i, List.length (chunk_messages n i todo) = List.length todo.
Proof.
  induction todo as [|c rest IH]; intros i; cbn; [reflexivity|].
  now rewrite IH.
Qed.

(** X9: a run sends one request on the single-shot path and one request
    per chunk on the chunked path, whatever the outcomes of the requests:
    a failed request is not sent again and does not stop the run. *)
Theorem one_request_per_chunk (client : service) (D : string) :
  List.length (requests_of client D)
  = if estimate_tokens_from_string (get_cleanup_prompt D) <=? MAX_CHUNK_SIZE
    then 1%nat else List.length (split_into_chunks D).
Proof.
  destruct (Z.leb_spec (estimate_tokens_from_string (get_cleanup_prompt D))
              MAX_CHUNK_SIZE) as [Hle|Hgt].
  - now rewrite requests_small.
  - rewrite requests_large by assumption. unfold chunked_requests.
    apply chunk_messages_length.
Qed.

Lemma first_none_all_text (l : list string) :
  forall i, first_none i (map Some l) = None.
Proof. induction l as [|x l IH]; intros i; cbn; [reflexivity | apply IH]. Qed.

Lemma omap_all_text (l : list string) : omap id (map Some l) = l.
Proof. induction l as [|x l IH]; cbn; [reflexivity | now rewrite IH]. Qed.

Lemma chunk_results_all_fail client n todo :
  (forall k msg, exists e, client k msg = inl e) ->
  forall k i,
    map output_of (chunk_results client n k i todo) = map Some todo
    /\ sumZ (map estimated_of (chunk_results client n k i todo)) = 0
    /\ sumZ (map actual_of (chunk_results client n k i todo)) = 0.
Proof.
  intros Hdown. induction todo as [|c rest IH]; intros k i; [done|].
  cbn [chunk_results map]. destruct (Hdown k (chunk_message c i n)) as [e ->].
  destruct (IH (S k) (i + 1)) as (Hout & Hest & Hact).
  rewrite Hout. unfold sumZ in *. cbn [foldr]. rewrite Hest, Hact. done.
Qed.

(** X10: when every request fails, a chunked document whose first
    paragraph fits the budget comes back unchanged, with both counters at
    0. *)
Theorem service_down_returns_document (client : service) (D : string) :
  (forall k msg, exists e, client k msg = inl e) ->
  MAX_CHUNK_SIZE < estimate_tokens_from_string (get_cleanup_prompt D) ->
  estimate_tokens_from_string (first_paragraph D) <= MAX_CHUNK_SIZE ->
  fst (run (text_tidy_up client D)) = inr (D, 0, 0).
Proof.
  intros Hdown Hbig Hfirst. rewrite text_tidy_up_large by assumption.
  unfold chunked. rewrite cleanup_chunks_run. cbn [fst].
  destruct (chunk_results_all_fail client
              (Z.of_nat (List.length (split_into_chunks D)))
              (split_into_chunks D) Hdown 0%nat 1) as (-> & -> & ->).
  unfold join_items. rewrite first_none_all_text, omap_all_text.
  now rewrite join_chunks_first_fits.
Qed.

Lemma service_down_witness :
  fst (run (text_tidy_up Inputs.failing_client Inputs.two_paragraphs))
  = inr (Inputs.two_paragraphs, 0, 0).
Proof.
  apply service_down_returns_document.
  - intros k msg. now exists "timeout".
  - rewrite estimate_quarter, prompt_len, two_paragraphs_len. reflexivity.
  - unfold first_paragraph. rewrite two_paragraphs_split. cbn [hd].
    rewrite estimate_repeat_char. change (Z.of_N 12003 / 4) with 3000.
    unfold MAX_CHUNK_SIZE. lia.
Defined.

(** X11: on the single-shot path a request that succeeds gives the content
    of the response as it is, an estimate of [(246 + len(document)) // 4]
    tokens, the 246 characters being the prompt around the document, and
    the usage of the response, or 0 when the response has none. *)
Theorem single_shot_success
    (client : service) (D : string) (text : string) (u : option Z) :
  estimate_tokens_from_string (get_cleanup_prompt D) <= MAX_CHUNK_SIZE ->
  client 0%nat (get_cleanup_prompt D) = inr (reply text u) ->
  run (text_tidy_up client D)
  = (inr (text, (246 + len D) / 4, default 0 u),
     [get_cleanup_prompt D]).
Proof.
  intros Hle Hok. rewrite text_tidy_up_small, single_shot_run by assumption.
  rewrite Hok, estimate_quarter, prompt_len. now destruct u.
Qed.

Lemma single_shot_success_witness :
  run (text_tidy_up (Inputs.first_only MoreInputs.cleaned "timeout")
         Inputs.short_document)
  = (inr ("# Title", 63, 70), [get_cleanup_prompt Inputs.short_document])
  /\ run (text_tidy_up (Inputs.first_only MoreInputs.cleaned_no_usage "timeout")
            Inputs.short_document)
     = (inr ("# Title", 63, 0), [get_cleanup_prompt Inputs.short_document]).
Proof.
  split.
  - apply (single_shot_success
             (Inputs.first_only MoreInputs.cleaned "timeout")
             Inputs.short_document "# Title" (Some 70)).
    + vm_compute. discriminate.
    + reflexivity.
  - apply (single_shot_success
             (Inputs.first_only MoreInputs.cleaned_no_usage "timeout")
             Inputs.short_document "# Title" None).
    + vm_compute. discriminate.
    + reflexivity.
Defined.

End PipelineExtras.

(** * The pages *)

Section PageFacts.
Import Py Prompts PagePrompts Main Pages MainPages PageOutcomes.
Variable client : service.

Example interpretation_prompt_len : len get_interpretation_prompt = 708.
Proof. reflexivity. Qed.

Lemma image_tokens_high base64_string :
  estimate_image_tokens base64_string "high" = 1228.
Proof. reflexivity. Qed.

Lemma interpret_page_run image page_number total_pages w :
  interpret_page client image page_number total_pages w
  = (inr match Outcomes.read_reply
                 (client (List.length w) (image_message image)) with
         | inr (text, reported) =>
             (text, 1405 + estimate_tokens_from_string text, reported)
         | inl e => (error_processing_page page_number e, 0, 0)
         end,
     w ++ [image_message image]).
Proof.
  unfold interpret_page, encode_image_to_base64, try_except, bind, create,
    of_result, ret, Run.read_usage, Run.read_content, Run.sized.
  rewrite image_tokens_high.
  destruct (client (List.length w) (image_message image))
    as [e|[[text| |e] [| |u]]]; reflexivity.
Qed.

Lemma process_text_page_run text page_number total_pages w :
  process_text_page client text page_number total_pages w
  = (inr match Outcomes.read_reply
                 (client (List.length w)
                    (text_message text page_number total_pages)) with
         | inr (answer, reported) =>
             (answer,
              estimate_tokens_from_string text
              + estimate_tokens_from_string answer,
              reported)
         | inl e => (error_processing_page page_number e, 0, 0)
         end,
     w ++ [text_message text page_number total_pages]).
Proof.
  unfold process_text_page, try_except, bind, create, of_result, ret,
    Run.read_usage, Run.read_content, Run.sized.
  destruct (client (List.length w) _) as [e|[[answer| |e] [| |u]]];
    reflexivity.
Qed.

Lemma process_page_run n t i p w :
  process_page client n t i p w
  = (let data := page_data i p (client (List.length w) (page_message n i p)) in
     inr (Tally (all_pages_data t ++ [data])
                (total_estimated_tokens t + snd (fst data))
                (total_actual_tokens t + snd data)),
     w ++ [page_message n i p]).
Proof.
  unfold process_page, page_message, page_data, bind at 1.
  destruct (is_text p).
  - rewrite process_text_page_run.
    destruct (Outcomes.read_reply _) as [e|[answer reported]]; reflexivity.
  - rewrite interpret_page_run.
    destruct (Outcomes.read_reply _) as [e|[answer reported]]; reflexivity.
Qed.

Lemma process_pages_run n todo :
  forall i t w,
    let data := pages_data client n (List.length w) i todo in
    process_pages client n i todo t w
    = (inr (Tally (all_pages_data t ++ data)
                  (total_estimated_tokens t + Outcomes.sumZ (estimates data))
                  (total_actual_tokens t + Outcomes.sumZ (actuals data))),
       w ++ page_messages n i todo).
Proof.
  induction todo as [|p rest IH]; intros i t w; cbn zeta.
  - cbn. rewrite !app_nil_r, !Z.add_0_r. now destruct t.
  - cbn [process_pages pages_data page_messages].
    unfold bind at 1. rewrite process_page_run. cbv beta iota zeta.
    rewrite IH. cbn [all_pages_data total_estimated_tokens total_actual_tokens].
    rewrite length_app, Nat.add_1_r, <- !app_assoc.
    unfold estimates, actuals, Outcomes.sumZ. cbn [map app foldr].
    repeat first [reflexivity | lia | f_equal].
Qed.

Lemma pages_data_length n todo :
  forall k i, List.length (pages_data client n k i todo) = List.length todo.
Proof.
  induction todo as [|p rest IH]; intros k i; cbn; [reflexivity|].
  now rewrite IH.
Qed.

Lemma page_messages_length n todo :
  forall i, List.length (page_messages n i todo) = List.length todo.
Proof.
  induction todo as [|p rest IH]; intros i; cbn; [reflexivity|].
  now rewrite IH.
Qed.

Lemma pages_data_lookup n todo :
  forall k i (j : nat) p,
    todo !! j = Some p ->
    pages_data client n k i todo !! j
    = Some (page_data (i + Z.of_nat j) p
              (client (k + j)%nat (page_message n (i + Z.of_nat j) p))).
Proof.
  induction todo as [|q rest IH]; intros k i j p H; [done|].
  destruct j as [|j]; cbn in H |- *.
  - injection H as ->. now rewrite Nat.add_0_r, Z.add_0_r.
  - rewrite (IH _ _ _ _ H).
    replace (S k + j)%nat with (k + S j)%nat by lia.
    replace (i + 1 + Z.of_nat j) with (i + Z.of_nat (S j)) by lia.
    reflexivity.
Qed.

Lemma process_pdf_run pages :
  let n := Z.of_nat (List.length pages) in
  let data := pages_data client n 0 0 pages in
  let tidy :=
    Run.run (text_tidy_up (text_service client (List.length pages))
               (combine_page_content data)) in
  run (process_pdf client pages)
  = (match fst tidy with
     | inl e => inl e
     | inr r =>
         inr (fst (fst r),
              Outcomes.sumZ (estimates data) + snd (fst r),
              Outcomes.sumZ (actuals data) + snd r)
     end,
     page_messages n 0 pages ++ map Text (snd tidy)).
Proof.
  cbn zeta. unfold run, process_pdf. unfold bind at 1.
  rewrite process_pages_run. cbv beta iota zeta.
  cbn [List.length app all_pages_data total_estimated_tokens
       total_actual_tokens tally_init].
  unfold bind, lift, ret. rewrite page_messages_length, !Z.add_0_l.
  destruct (Run.run _) as [[e|r] sent]; reflexivity.
Qed.

(** X12: a text page gives the text and the usage of the reply, 0 when
    the reply has no usage, and as estimate the estimate of the page text
    plus that of the reply; the estimate leaves out the instructions sent
    with the text, at least 191 tokens of the message.  When the request
    raises, or a read of the reply does, the page gives the line "Error
    processing page N: ..." with the message of the exception, and 0 for
    both counts. *)
Theorem text_page_outcome (text : string) (page_number total_pages : Z)
    (w : world) :
  process_text_page client text page_number total_pages w
  = (inr match client (List.length w)
                 (Text (get_text_page_prompt text page_number total_pages))
         with
         | inr (Run.Response (Run.Content answer) Run.UsageMissing) =>
             (answer, len text / 4 + len answer / 4, 0)
         | inr (Run.Response (Run.Content answer) (Run.Usage reported)) =>
             (answer, len text / 4 + len answer / 4, reported)
         | inr (Run.Response _ Run.UsageNone) =>
             ("Error processing page " +:+ str page_number +:+ ": "
              +:+ usage_none_error, 0, 0)
         | inr (Run.Response Run.ContentNone _) =>
             ("Error processing page " +:+ str page_number +:+ ": "
              +:+ len_none_error, 0, 0)
         | inr (Run.Response (Run.ContentUnreadable e) _) =>
             ("Error processing page " +:+ str page_number +:+ ": " +:+ e,
              0, 0)
         | inl e =>
             ("Error processing page " +:+ str page_number +:+ ": " +:+ e,
              0, 0)
         end,
     w ++ [Text (get_text_page_prompt text page_number total_pages)])
  /\ len text / 4 + 191
     <= len (get_text_page_prompt text page_number total_pages) / 4.
Proof.
  split.
  { rewrite process_text_page_run. unfold text_message.
    destruct (client (List.length w) _) as [e|[[answer| |e] [| |u]]];
      reflexivity. }
  unfold get_text_page_prompt. rewrite !len_app.
  change (len get_interpretation_prompt) with 708.
  replace (len "Please process this text from page ") with 35 by reflexivity.
  replace (len " of ") with 4 by reflexivity.
  replace (len ".") with 1 by reflexivity.
  replace (len "TEXT CONTENT:") with 13 by reflexivity.
  change (len nl) with 1.
  pose proof (len_nonneg (str page_number)).
  pose proof (len_nonneg (str total_pages)).
  pose proof (len_nonneg text).
  Z.div_mod_to_equations. lia.
Qed.

(** X13: an image page is estimated at 1405 tokens plus the estimate of
    the reply, whatever the image: 177 for the prompt and
    [int((525 + 177) * 1.75) = 1228] for the image, which counts the prompt
    a second time.  When the request raises, or a read of the reply does,
    the page gives the line "Error processing page N: ..." with the message
    of the exception, and 0 for both counts. *)
Theorem image_page_outcome (image : string) (page_number total_pages : Z)
    (w : world) :
  len get_interpretation_prompt / 4 = 177
  /\ estimate_image_tokens image "high" = 1228
  /\ interpret_page client image page_number total_pages w
     = (inr match client (List.length w)
                    (Parts [TextPart get_interpretation_prompt;
                            ImageUrlPart ("data:image/png;base64," +:+ image)])
            with
            | inr (Run.Response (Run.Content answer) Run.UsageMissing) =>
                (answer, 1405 + len answer / 4, 0)
            | inr (Run.Response (Run.Content answer) (Run.Usage reported)) =>
                (answer, 1405 + len answer / 4, reported)
            | inr (Run.Response _ Run.UsageNone) =>
                ("Error processing page " +:+ str page_number +:+ ": "
                 +:+ usage_none_error, 0, 0)
            | inr (Run.Response Run.ContentNone _) =>
                ("Error processing page " +:+ str page_number +:+ ": "
                 +:+ len_none_error, 0, 0)
            | inr (Run.Response (Run.ContentUnreadable e) _) =>
                ("Error processing page " +:+ str page_number +:+ ": " +:+ e,
                 0, 0)
            | inl e =>
                ("Error processing page " +:+ str page_number +:+ ": " +:+ e,
                 0, 0)
            end,
        w ++ [Parts [TextPart get_interpretation_prompt;
                     ImageUrlPart ("data:image/png;base64," +:+ image)]]).
Proof.
  split; [reflexivity|]. split; [reflexivity|].
  rewrite interpret_page_run. unfold image_message.
  destruct (client (List.length w) _) as [e|[[answer| |e] [| |u]]];
    reflexivity.
Qed.

(** X14: [process_pdf] requests the pages in order and then the cleanup
    of their contents joined by line feeds, with the same service.  No
    request for a page makes it raise: a page whose request raises, or
    whose reply cannot be read, stands in the document as its error line
    and adds 0 to both totals.  What [process_pdf] does then is what
    [text_tidy_up] does: when that returns, the text saved is the text it
    returns and each total is the sum over the pages plus its count; when
    that raises, [process_pdf] raises the same exception and saves
    nothing.  It returns whenever the document goes the single-shot
    way. *)
Theorem process_pdf_outcome (pages : list page) :
  let n := Z.of_nat (List.length pages) in
  let data := pages_data client n 0 0 pages in
  let tidy :=
    Run.run (text_tidy_up (text_service client (List.length pages))
               (join nl (contents data))) in
  (forall (j : nat) p,
     pages !! j = Some p ->
     data !! j
     = Some (page_data (Z.of_nat j) p
               (client j (page_message n (Z.of_nat j) p))))
  /\ List.length data = List.length pages
  /\ run (process_pdf client pages)
     = (match fst tidy with
        | inl e => inl e
        | inr (final, estimated, actual) =>
            inr (final,
                 Outcomes.sumZ (estimates data) + estimated,
                 Outcomes.sumZ (actuals data) + actual)
        end,
        page_messages n 0 pages ++ map Text (snd tidy))
  /\ (estimate_tokens_from_string
        (get_cleanup_prompt (join nl (contents data)))
      <= MAX_CHUNK_SIZE ->
      exists final estimated actual,
        fst (run (process_pdf client pages)) = inr (final, estimated, actual)).
Proof.
  cbn zeta. split; [intros j p H; now apply pages_data_lookup with (k := 0%nat)|].
  split; [apply pages_data_length|].
  assert (Hrun := process_pdf_run pages). cbn zeta in Hrun.
  change (combine_page_content ?d) with (join nl (contents d)) in Hrun.
  split.
  - rewrite Hrun. destruct (fst (Run.run _)) as [e|[[final estimated] actual]];
      reflexivity.
  - intros Hle. rewrite Hrun.
    rewrite text_tidy_up_small, single_shot_run by assumption. cbn [fst].
    destruct (Outcomes.read_reply _) as [e|[text reported]]; cbn; eauto.
Qed.

End PageFacts.

Section PageExtras.
Import Py Prompts PagePrompts Main Pages MainPages PageOutcomes.

Lemma pages_data_all_fail (client : service) (e : Run.exn) n todo :
  (forall k m, client k m = inl e) ->
  forall k i,
    contents (pages_data client n k i todo) = error_lines e i todo
    /\ Outcomes.sumZ (estimates (pages_data client n k i todo)) = 0
    /\ Outcomes.sumZ (actuals (pages_data client n k i todo)) = 0.
Proof.
  intros Hdown. induction todo as [|p rest IH]; intros k i; [done|].
  cbn [pages_data error_lines]. rewrite Hdown.
  destruct (IH (S k) (i + 1)) as (Hc & He & Ha).
  unfold contents, estimates, actuals, Outcomes.sumZ in *.
  cbn [map page_data fst snd foldr]. rewrite Hc, He, Ha. done.
Qed.

(** X15: when every request fails with [e] and the error lines of the
    pages make a document small enough for one cleanup request,
    [process_pdf] saves the banner of the failed cleanup followed by the
    error lines, one per page, and returns 0 for both totals. *)
Theorem process_pdf_service_down
    (client : service) (e : Run.exn) (pages : list page) :
  (forall k m, client k m = inl e) ->
  estimate_tokens_from_string
    (get_cleanup_prompt (join nl (error_lines e 0 pages)))
  <= MAX_CHUNK_SIZE ->
  fst (run (process_pdf client pages))
  = inr ("Error in tidy up: " +:+ e +:+ nl +:+ nl
         +:+ "Raw document content:" +:+ nl +:+ nl
         +:+ join nl (error_lines e 0 pages), 0, 0).
Proof.
  intros Hdown Hsmall. rewrite process_pdf_run. cbn zeta.
  destruct (pages_data_all_fail client e
              (Z.of_nat (List.length pages)) pages Hdown 0%nat 0)
    as (Hc & He & Ha).
  change (combine_page_content ?d) with (join nl (contents d)).
  rewrite Hc, He, Ha.
  rewrite text_tidy_up_small, single_shot_run by assumption.
  unfold text_service. rewrite Hdown. reflexivity.
Qed.

Lemma process_pdf_service_down_witness :
  fst (run (process_pdf down two_pages))
  = inr ("Error in tidy up: timeout" +:+ nl +:+ nl
         +:+ "Raw document content:" +:+ nl +:+ nl
         +:+ "Error processing page 1: timeout" +:+ nl
         +:+ "Error processing page 2: timeout", 0, 0).
Proof.
  apply (process_pdf_service_down down "timeout" two_pages).
  - reflexivity.
  - vm_compute. discriminate.
Defined.



End PageExtras.

(** * A file name that is free *)

Section UniqueFilename.
Import RunPy.
Variable path_exists : string -> bool.
Variable dirname basename : string -> string.
Variable splitext : string -> string * string.
Variable path_join : string -> string -> string.

Let numbered := numbered dirname basename splitext path_join.
Let search := search path_exists dirname basename splitext path_join.
Let get_unique_filename :=
  get_unique_filename path_exists dirname basename splitext path_join.

Lemma search_found base fuel :
  forall counter p,
    search base fuel counter = Some p ->
    exists k,
      counter <= k /\ p = numbered base k /\ path_exists p = false
      /\ forall j, counter <= j < k -> path_exists (numbered base j) = true.
Proof.
  induction fuel as [|fuel IH]; intros counter p H; [discriminate|].
  cbn in H. fold numbered in H.
  destruct (path_exists (numbered base counter)) eqn:E; cbn in H.
  - apply IH in H as (k & Hk & Hp & Hfree & Hbelow).
    exists k. repeat split; [lia | assumption | assumption |].
    intros j Hj. destruct (Z.eq_dec j counter) as [->|Hne];
      [assumption | apply Hbelow; lia].
  - injection H as <-. exists counter. repeat split; [lia | assumption |].
    intros j Hj. lia.
Qed.

Lemma search_enough base k :
  path_exists (numbered base k) = false ->
  forall fuel counter,
    counter <= k -> (Z.to_nat (k - counter) < fuel)%nat ->
    exists p, search base fuel counter = Some p.
Proof.
  intros Hfree. induction fuel as [|fuel IH]; intros counter Hle Hfuel; [lia|].
  cbn. fold numbered.
  destruct (path_exists (numbered base counter)) eqn:E; cbn; [|eauto].
  assert (Hlt : counter < k).
  { destruct (Z.eq_dec counter k) as [->|Hne]; [congruence | lia]. }
  apply IH; lia.
Qed.

Lemma search_more_fuel base fuel :
  forall counter p fuel',
    search base fuel counter = Some p -> (fuel <= fuel')%nat ->
    search base fuel' counter = Some p.
Proof.
  induction fuel as [|fuel IH]; intros counter p fuel' H Hle; [discriminate|].
  destruct fuel' as [|fuel']; [lia|]. cbn in H |- *.
  destruct (negb (path_exists _)); [assumption|].
  apply IH; [assumption | lia].
Qed.

(** X18: the name returned is never the name of a file that is there.  It
    is the base path when that is free; otherwise it is the numbered name
    of the smallest counter from 2 on whose name is free. *)
Theorem unique_filename_is_free (fuel : nat) (base p : string) :
  get_unique_filename fuel base = Some p ->
  path_exists p = false
  /\ ((path_exists base = false /\ p = base)
      \/ (path_exists base = true
          /\ exists k,
               2 <= k /\ p = numbered base k
               /\ forall j, 2 <= j < k ->
                            path_exists (numbered base j) = true)).
Proof.
  unfold get_unique_filename, RunPy.get_unique_filename. fold search.
  destruct (path_exists base) eqn:E; cbn; intros H.
  - apply search_found in H as (k & Hk & Hp & Hfree & Hbelow).
    split; [assumption|]. right. split; [reflexivity|]. eauto.
  - injection H as <-. split; [assumption|]. now left.
Qed.

(** X19: the loop ends as soon as some counter from 2 on has a free name:
    with the base path taken and the name of [k] free, [k - 1] rounds are
    enough, and more rounds give the same name. *)
Theorem unique_filename_found (fuel : nat) (base : string) (k : Z) :
  2 <= k ->
  path_exists (numbered base k) = false ->
  (Z.to_nat (k - 1) <= fuel)%nat ->
  exists p,
    get_unique_filename fuel base = Some p
    /\ forall fuel', (fuel <= fuel')%nat ->
                     get_unique_filename fuel' base = Some p.
Proof.
  intros Hk Hfree Hfuel.
  unfold get_unique_filename, RunPy.get_unique_filename. fold search.
  destruct (path_exists base); cbn; [|eauto].
  destruct (search_enough base k Hfree fuel 2) as [p Hp]; [lia | lia |].
  exists p. split; [assumption|].
  intros fuel' Hle. now apply search_more_fuel with (fuel := fuel).
Qed.

End UniqueFilename.

Lemma unique_filename_is_free_witness :
  SmallFs.path_exists "notes 3.md" = false
  /\ ((SmallFs.path_exists "notes.md" = false /\ "notes 3.md" = "notes.md")
      \/ (SmallFs.path_exists "notes.md" = true
          /\ exists k,
               2 <= k
               /\ "notes 3.md"
                  = RunPy.numbered SmallFs.dirname SmallFs.basename
                      SmallFs.splitext SmallFs.path_join "notes.md" k
               /\ forall j, 2 <= j < k ->
                    SmallFs.path_exists
                      (RunPy.numbered SmallFs.dirname SmallFs.basename
                         SmallFs.splitext SmallFs.path_join "notes.md" j)
                    = true)).
Proof.
  apply (unique_filename_is_free SmallFs.path_exists SmallFs.dirname
           SmallFs.basename SmallFs.splitext SmallFs.path_join
           5%nat "notes.md" "notes 3.md").
  reflexivity.
Defined.

Lemma unique_filename_found_witness :
  exists p,
    RunPy.get_unique_filename SmallFs.path_exists SmallFs.dirname
      SmallFs.basename SmallFs.splitext SmallFs.path_join 2%nat "notes.md"
    = Some p
    /\ forall fuel', (2 <= fuel')%nat ->
         RunPy.get_unique_filename SmallFs.path_exists SmallFs.dirname
           SmallFs.basename SmallFs.splitext SmallFs.path_join fuel' "notes.md"
         = Some p.
Proof.
  apply (unique_filename_found SmallFs.path_exists SmallFs.dirname
           SmallFs.basename SmallFs.splitext SmallFs.path_join
           2%nat "notes.md" 3).
  - lia.
  - reflexivity.
  - vm_compute. lia.
Defined.
